(** * gen-asn.py: range-configuration parser and label value derivation

    A shallow embedding of [parse_cfg], [values] and the data-collecting part
    of [main] of gen-asn.py, together with the Python builtins they call.

    Conventions.
    - Python [int] is unbounded: it is [Z].
    - A Python [str] is a [string]; a character stands for the code point of
      the same number (0..255).
    - [print] and exceptions are explicit: a computation yields the lines it
      printed and either a value or the exception that ended it ([io]).
    - Conversions between [int] and [str] are those of the language: the
      configurable cap that CPython 3.11 and later put on their number of
      digits (4300 unless changed, none when set to 0) is left out, so the
      statements about all integers are about integers under that cap when
      it is on.
    - [print_csv], which [main] no longer calls, is embedded with its helper
      [_split]; [render] and the rest of [main] only drive the PDF and QR
      libraries and are not embedded. *)

From Stdlib Require Import ZArith List String Ascii Bool Lia DecimalString.
From Stdlib Require Import Reals Lra.
From Stdlib Require DecimalFacts DecimalPos DecimalN.
From Stdlib Require Import Permutation FinFun.
Import ListNotations.

Local Open Scope string_scope.
Local Open Scope Z_scope.

(** ** Printed output and exceptions *)

Inductive exn : Type :=
| ValueError.

Inductive outcome (A : Type) : Type :=
| Return (a : A)
| Raise (e : exn).

Arguments Return {A} a.
Arguments Raise {A} e.

(** Lines written to standard output so far, and how the computation ended. *)
Definition io (A : Type) : Type := (list string * outcome A)%type.

Definition ret {A} (a : A) : io A := ([], Return a).

Definition raise {A} (e : exn) : io A := ([], Raise e).

Definition print (line : string) : io unit := ([line], Return tt).

Definition bind {A B} (m : io A) (k : A -> io B) : io B :=
  match m with
  | (out, Return a) => let (out', r) := k a in ((out ++ out')%list, r)
  | (out, Raise e) => (out, Raise e)
  end.

Declare Scope io_scope.
Delimit Scope io_scope with io.
Notation "x <- m ;; k" := (bind m (fun x => k))
  (at level 61, m at next level, right associativity) : io_scope.
Notation "' p <- m ;; k" := (bind m (fun x => let p := x in k))
  (at level 61, p pattern, m at next level, right associativity) : io_scope.
Notation "m ;;; k" := (bind m (fun _ => k))
  (at level 61, right associativity) : io_scope.
Local Open Scope io_scope.

Definition stdout {A} (m : io A) : list string := fst m.
Definition result {A} (m : io A) : outcome A := snd m.

(** ** Python builtins *)

Module Py.

(** [s.split(sep)] for a one-character separator: every occurrence cuts,
    empty fields are kept, the result is never empty. *)
Fixpoint split (sep : ascii) (s : string) : list string :=
  match s with
  | EmptyString => [EmptyString]
  | String c s' =>
      if Ascii.eqb c sep then EmptyString :: split sep s'
      else match split sep s' with
           | p :: ps => String c p :: ps
           | [] => [String c EmptyString]
           end
  end.

(** [s.count(c)] for a single character. *)
Fixpoint count (c : ascii) (s : string) : nat :=
  match s with
  | EmptyString => O
  | String c' s' => ((if Ascii.eqb c' c then 1 else 0) + count c s')%nat
  end.

(** Truth value of a string: non-empty. *)
Definition truthy (s : string) : bool :=
  match s with
  | EmptyString => false
  | String _ _ => true
  end.

Definition startswith (s pre : string) : bool := String.prefix pre s.

Fixpoint endswith (s suf : string) : bool :=
  if String.eqb s suf then true
  else match s with
       | EmptyString => false
       | String _ s' => endswith s' suf
       end.

(** [s[1:]] *)
Definition slice_from_1 (s : string) : string :=
  match s with
  | EmptyString => EmptyString
  | String _ s' => s'
  end.

(** White space that [int] skips around a number. *)
Definition is_space (c : ascii) : bool :=
  let n := nat_of_ascii c in
  (((9 <=? n) && (n <=? 13)) || (n =? 32) || (n =? 133) || (n =? 160))%nat.

Definition digit_of (c : ascii) : option Z :=
  let n := Z.of_nat (nat_of_ascii c) in
  if (48 <=? n) && (n <=? 57) then Some (n - 48) else None.

Fixpoint lstrip (s : string) : string :=
  match s with
  | EmptyString => EmptyString
  | String c s' => if is_space c then lstrip s' else s
  end.

Fixpoint all_space (s : string) : bool :=
  match s with
  | EmptyString => true
  | String c s' => is_space c && all_space s'
  end.

(** The digits after the first one: more digits, single underscores between
    digits, then only white space. *)
Fixpoint int_digits (acc : Z) (s : string) : option Z :=
  match s with
  | EmptyString => Some acc
  | String c s' =>
      match digit_of c with
      | Some d => int_digits (10 * acc + d) s'
      | None =>
          if Ascii.eqb c "_" then
            match s' with
            | EmptyString => None
            | String c' s'' =>
                match digit_of c' with
                | Some d => int_digits (10 * acc + d) s''
                | None => None
                end
            end
          else if all_space s then Some acc else None
      end
  end.

Definition int_unsigned (s : string) : option Z :=
  match s with
  | EmptyString => None
  | String c s' =>
      match digit_of c with
      | Some d => int_digits d s'
      | None => None
      end
  end.

(** The integer a text denotes in base 10, [None] where [int] rejects it.
    (CPython also rejects a text of more than [sys.get_int_max_str_digits()]
    digits; see the conventions at the top.) *)
Definition int_text (s : string) : option Z :=
  match lstrip s with
  | String "+" s' => int_unsigned s'
  | String "-" s' => option_map Z.opp (int_unsigned s')
  | s' => int_unsigned s'
  end.

(** [int(s)] *)
Definition int (s : string) : io Z :=
  match int_text s with
  | Some z => ret z
  | None => raise ValueError
  end.

(** [range(start, stop)] as a list. *)
Definition range (start stop : Z) : list Z :=
  map (fun i => start + Z.of_nat i) (seq 0 (Z.to_nat (stop - start))).

(** [s * n]: [n] copies, none when [n] is not positive. *)
Definition str_mul (s : string) (n : Z) : string :=
  String.concat "" (repeat s (Z.to_nat n)).

Definition decimal (n : Z) : string :=
  NilZero.string_of_uint (N.to_uint (Z.to_N n)).

Definition zfill (width : nat) (s : string) : string :=
  String.concat "" (repeat "0" (width - String.length s)) ++ s.

(** [f"{z:0<width>d}"]: sign first, then zero padding up to the width. *)
Definition format_0d (width : nat) (z : Z) : string :=
  if z <? 0 then "-" ++ zfill (width - 1) (decimal (- z))
  else zfill width (decimal z).

(** The loop behind [ceil_log10]: [p = 10 ^ k], stop at the first power
    that reaches [n]. *)
Fixpoint ceil_log10_from (fuel : nat) (p k n : Z) : Z :=
  if n <=? p then k
  else match fuel with
       | O => k
       | S fuel' => ceil_log10_from fuel' (10 * p) (k + 1) n
       end.

(** The value of [math.ceil(math.log(n, 10))] for [n >= 1]: the least [k]
    with [n <= 10 ^ k].  The source computes the logarithm in double
    precision as [log(n) / log(10)]; this is its exact-arithmetic value. *)
Definition ceil_log10 (n : Z) : Z :=
  ceil_log10_from (Z.to_nat (Z.log2_up n)) 1 0 n.

(** [math.ceil(math.log(n, 10))]; [math.log] raises [ValueError]
    ("math domain error") when [n <= 0]. *)
Definition math_ceil_log10 (n : Z) : io Z :=
  if n <=? 0 then raise ValueError else ret (ceil_log10 n).

(** [f"{z}"] *)
Definition str (z : Z) : string :=
  if z <? 0 then "-" ++ decimal (- z) else decimal z.

(** [range(start, stop, step)] for a step other than 0 (a step of 0 is
    refused by the caller of this function with [ValueError]). *)
Definition range3 (start stop step : Z) : list Z :=
  if 0 <? step then
    map (fun k => start + Z.of_nat k * step)
        (seq 0 (Z.to_nat ((stop - start + step - 1) / step)))
  else
    map (fun k => start + Z.of_nat k * step)
        (seq 0 (Z.to_nat ((start - stop - step - 1) / (- step)))).

(** [l[i:j]] for [0 <= i]: the elements at the positions [i .. j-1] that
    exist. *)
Definition slice {A} (l : list A) (i j : Z) : list A :=
  firstn (Z.to_nat (j - i)) (skipn (Z.to_nat i) l).

(** [len(l)] *)
Definition len {A} (l : list A) : Z := Z.of_nat (List.length l).

End Py.

(** ** gen-asn.py *)

Definition colors : list string :=
  [ "#fc990f"; "#cec323"; "#53adfc"; "#b53834";
    "#4fce46"; "#6374e2"; "#55d1ac"; "#ff0090" ].

Definition ROWS : Z := 16.
Definition COLS : Z := 5.
Definition CELLS : Z := ROWS * COLS.

Definition parse_cfg (cfg : string) : io (Z * Z * Z) :=
  match Py.split ":" cfg with
  | [p0; p1; p2] =>
      year <- (if Py.truthy p0 then Py.int p0 else ret 0) ;;
      first <- (if Py.truthy p1 then Py.int p1 else ret 1) ;;
      last <- (if negb (Py.truthy p2) then ret (first + ROWS * COLS - 1)
               else if Py.startswith p2 "x" then
                      n <- Py.int (Py.slice_from_1 p2) ;;
                      ret (first + ROWS * n - 1)
               else Py.int p2) ;;
      ret (year, first, last)
  | _ =>
      print ("Error: invalid config: " ++ cfg) ;;;
      ret (0, 0, 0)
  end.

Definition values (year sn : Z) : io (string * string * string * string) :=
  let id4 := Py.format_0d 4 sn in
  let asn := "ASN" ++ Py.format_0d 2 year ++ id4 in
  c <- Py.math_ceil_log10 (sn + 1) ;;
  let zero4 := Py.str_mul "0" (4 - c) in
  let fg_color := nth (Z.to_nat (year mod Z.of_nat (List.length colors))) colors "" in
  ret (id4, asn, zero4, fg_color).

(** The labels one resolved range adds to [data]:
    [[[year, x] for x in range(first, last+1)]]. *)
Definition labels (r : Z * Z * Z) : list (Z * Z) :=
  let '(year, first, last) := r in
  map (fun x => (year, x)) (Py.range first (last + 1)).

(** The loop of [main] over [args.cfg], from the current [data]. *)
Fixpoint collect (cfgs : list string) (data : list (Z * Z)) : io (list (Z * Z)) :=
  match cfgs with
  | [] => ret data
  | cfg :: rest =>
      r <- parse_cfg cfg ;;
      collect rest (data ++ labels r)%list
  end.

(** The parsed command line: the [cfg] arguments and [--output]. *)
Record args : Type := { args_cfg : list string; args_output : string }.

Definition default_output : string := "output.pdf".

Definition output_pdf (output : string) : string :=
  if negb (Py.endswith output ".pdf") then output ++ ".pdf" else output.

(** [main] up to the call of the label library: the label data and the name
    of the file that is opened. *)
Definition main (a : args) : io (list (Z * Z) * string) :=
  data <- collect (args_cfg a) [] ;;
  ret (data, output_pdf (args_output a)).

(** ** [print_csv]

    [print_csv] indexes lists, so it can also end in [IndexError]: its
    computations carry the exceptions above or that one. *)

Inductive error : Type :=
| Exn (e : exn)
| IndexError.

Definition prog (A : Type) : Type := (list string * (A + error))%type.

Definition pret {A} (a : A) : prog A := ([], inl a).

Definition praise {A} (e : error) : prog A := ([], inr e).

Definition pprint (line : string) : prog unit := ([line], inl tt).

Definition pbind {A B} (m : prog A) (k : A -> prog B) : prog B :=
  match m with
  | (out, inl a) => let (out', r) := k a in ((out ++ out')%list, r)
  | (out, inr e) => (out, inr e)
  end.

(** A computation of the first part of the program, run inside [print_csv]. *)
Definition lift {A} (m : io A) : prog A :=
  match m with
  | (out, Return a) => (out, inl a)
  | (out, Raise e) => (out, inr (Exn e))
  end.

Declare Scope prog_scope.
Delimit Scope prog_scope with prog.
Notation "x <-- m ;; k" := (pbind m (fun x => k))
  (at level 61, m at next level, right associativity) : prog_scope.
Notation "m ;;;; k" := (pbind m (fun _ => k))
  (at level 61, right associativity) : prog_scope.
Local Open Scope prog_scope.

(** [for x in l: body(x)] *)
Fixpoint for_each {A} (l : list A) (body : A -> prog unit) : prog unit :=
  match l with
  | [] => pret tt
  | x :: l' => body x ;;;; for_each l' body
  end.

(** [l[i]]: a negative index counts from the end, an index outside the list
    raises [IndexError]. *)
Definition index {A} (l : list A) (i : Z) : prog A :=
  let j := if i <? 0 then i + Py.len l else i in
  if j <? 0 then praise IndexError
  else match nth_error l (Z.to_nat j) with
       | Some x => pret x
       | None => praise IndexError
       end.

(** The helper [_split] of [print_csv]. *)
Definition _split {A} (l : list A) (chunk_size : Z) : prog (list (list A)) :=
  if chunk_size =? 0 then praise (Exn ValueError)
  else pret (map (fun i => Py.slice l i (i + chunk_size))
                 (Py.range3 0 (Py.len l) chunk_size)).

(** The line [f"{sn},{year:02d},{id4},{asn},{zero4},{fg_color}"]. *)
Definition csv_line (year sn : Z) (v : string * string * string * string) : string :=
  let '(id4, asn, zero4, fg_color) := v in
  Py.str sn ++ "," ++ Py.format_0d 2 year ++ "," ++ id4 ++ "," ++ asn ++ ","
    ++ zero4 ++ "," ++ fg_color.

Definition print_csv (data : list (Z * Z)) : prog unit :=
  columns <-- _split data ROWS ;;
  pages <-- _split columns COLS ;;
  pprint "ID,Year,ID4,CODE,Zero4,fg" ;;;;
  for_each pages (fun page =>
    for_each (Py.range 0 ROWS) (fun r =>
      for_each (Py.range 0 COLS) (fun c =>
        column <-- index page c ;;
        cell <-- index column r ;;
        v <-- lift (values (fst cell) (snd cell)) ;;
        pprint (csv_line (fst cell) (snd cell) v)))).

(** ** Vocabulary of the statements *)

(** A text field of a range spec stands for [z]: the default when it is
    empty, the integer it spells otherwise. *)
Definition denotes (default : Z) (field : string) (z : Z) : Prop :=
  (field = "" /\ z = default) \/ (field <> "" /\ Py.int_text field = Some z).

(** Settles [denotes default field z] for a literal field. *)
Ltac field_given :=
  solve [ left; split; reflexivity
        | right; split; [discriminate | reflexivity] ].

(** The diagnostic printed for a rejected spec. *)
Definition diagnostic (cfg : string) : string := "Error: invalid config: " ++ cfg.

(** A spec is rejected when it does not hold exactly two colons. *)
Definition malformed (cfg : string) : bool := negb (Py.count ":" cfg =? 2)%nat.

(** [l] cut into runs of [n] elements, the last one shorter when [n] does
    not divide the length. *)
Definition chunks {A} (n : nat) (l : list A) : list (list A) :=
  map (fun k => firstn n (skipn (k * n) l))
      (seq 0 ((List.length l + n - 1) / n)).

(** The CSV line of one label. *)
Definition csv_row (cell : Z * Z) : string :=
  match values (fst cell) (snd cell) with
  | (_, Return v) => csv_line (fst cell) (snd cell) v
  | (_, Raise _) => ""
  end.

(** The place in [data] of the label of the j-th CSV line: page [j / 80],
    row [(j mod 80) / 5], column [j mod 5], where a page of [data] holds its
    5 columns of 16 labels one after the other. *)
Definition csv_source (j : nat) : nat :=
  (80 * (j / 80) + 16 * (j mod 5) + (j mod 80) / 5)%nat.

(** The cell of column [c] and row [r] of a page, when it is there. *)
Definition page_cell (page : list (list (Z * Z))) (r c : nat) : option (Z * Z) :=
  match nth_error page c with
  | Some column => nth_error column r
  | None => None
  end.

(** The rounds of the two inner loops of [print_csv] on one page. *)
Definition page_rounds (page : list (list (Z * Z))) : prog unit :=
  for_each (Py.range 0 ROWS) (fun r =>
    for_each (Py.range 0 COLS) (fun c =>
      column <-- index page c ;;
      cell <-- index column r ;;
      v <-- lift (values (fst cell) (snd cell)) ;;
      pprint (csv_line (fst cell) (snd cell) v))).

(** Quotient and remainder of [a] by the constant [b], for [lia]. *)
Ltac euclid a b :=
  pose proof (Nat.div_mod_eq a b);
  pose proof (Nat.mod_upper_bound a b ltac:(lia)).

(** The number that the digits [d] spell after a prefix of value [acc]. *)
Fixpoint uint_val (acc : Z) (d : Decimal.uint) : Z :=
  match d with
  | Decimal.Nil => acc
  | Decimal.D0 d' => uint_val (10 * acc + 0) d'
  | Decimal.D1 d' => uint_val (10 * acc + 1) d'
  | Decimal.D2 d' => uint_val (10 * acc + 2) d'
  | Decimal.D3 d' => uint_val (10 * acc + 3) d'
  | Decimal.D4 d' => uint_val (10 * acc + 4) d'
  | Decimal.D5 d' => uint_val (10 * acc + 5) d'
  | Decimal.D6 d' => uint_val (10 * acc + 6) d'
  | Decimal.D7 d' => uint_val (10 * acc + 7) d'
  | Decimal.D8 d' => uint_val (10 * acc + 8) d'
  | Decimal.D9 d' => uint_val (10 * acc + 9) d'
  end.

(** [c] is the ceiling of the real [x]. *)
Definition is_ceil (x : R) (c : Z) : Prop := (IZR c - 1 < x <= IZR c)%R.

(** The base-10 logarithm of an integer, as a real. *)
Definition log10 (n : Z) : R := (ln (IZR n) / ln 10)%R.

(** [k] zero characters. *)
Fixpoint zeros (k : nat) : string :=
  match k with
  | O => ""
  | S k' => String "0" (zeros k')
  end.

(** [year] paired with each serial from [first] to [last]. *)
Definition items (year first last : Z) : list (Z * Z) :=
  map (fun x => (year, x)) (Py.range first (last + 1)).

(** ** Sample runs *)

Example split_examples :
  Py.split ":" "a:b" = ["a"; "b"] /\ Py.split ":" "" = [""] /\
  Py.split ":" "::" = [""; ""; ""] /\ Py.split ":" ":a::" = [""; "a"; ""; ""].
Proof. repeat split; reflexivity. Qed.

Example int_examples :
  map Py.int_text [" 5 "; "+5"; "-5"; "1_0"; "007"; "-0"]
    = [Some 5; Some 5; Some (-5); Some 10; Some 7; Some 0] /\
  map Py.int_text [""; "+"; "- 5"; "_1"; "1_"; "1__0"; "x"; "5 5"]
    = [None; None; None; None; None; None; None; None].
Proof. split; reflexivity. Qed.

Example format_examples :
  map (Py.format_0d 4) [7; 0; 12345; -1] = ["0007"; "0000"; "12345"; "-001"] /\
  map (Py.format_0d 2) [1; 23; 123; -1] = ["01"; "23"; "123"; "-1"].
Proof. split; reflexivity. Qed.

Example ceil_log10_examples :
  map Py.ceil_log10 [1; 2; 9; 10; 11; 100; 101; 1000; 1001; 10000; 10001]
    = [0; 1; 1; 1; 2; 2; 3; 3; 4; 4; 5].
Proof. reflexivity. Qed.

Example parse_cfg_23_1_16 : parse_cfg "23:1:16" = ret (23, 1, 16).
Proof. reflexivity. Qed.

(** ** The [io] monad *)

Lemma bind_ret {A B} (a : A) (k : A -> io B) : bind (ret a) k = k a.
Proof. unfold bind, ret. destruct (k a) as [out r]. reflexivity. Qed.

Lemma bind_raise {A B} (e : exn) (k : A -> io B) : bind (raise e) k = raise e.
Proof. reflexivity. Qed.

Lemma bind_Raise {A B} out (e : exn) (k : A -> io B) :
  bind (out, Raise e) k = (out, Raise e).
Proof. reflexivity. Qed.

Lemma bind_Return {A B} out (a : A) (k : A -> io B) :
  bind (out, Return a) k = ((out ++ stdout (k a))%list, result (k a)).
Proof. unfold bind, stdout, result. destruct (k a). reflexivity. Qed.

(** ** [split] *)

Lemma split_length sep s : List.length (Py.split sep s) = S (Py.count sep s).
Proof.
  induction s as [|c s IH]; simpl; [reflexivity|].
  destruct (Ascii.eqb c sep); simpl.
  - now rewrite IH.
  - destruct (Py.split sep s) as [|p ps]; simpl in *; [discriminate|exact IH].
Qed.

Lemma split_no_sep sep s : Py.count sep s = O -> Py.split sep s = [s].
Proof.
  induction s as [|c s IH]; simpl; [reflexivity|].
  destruct (Ascii.eqb c sep); simpl; [discriminate|].
  intros H. now rewrite (IH H).
Qed.

Lemma split_app_sep sep a rest :
  Py.count sep a = O ->
  Py.split sep (a ++ String sep rest) = a :: Py.split sep rest.
Proof.
  induction a as [|c a IH]; simpl.
  - now rewrite Ascii.eqb_refl.
  - destruct (Ascii.eqb c sep); simpl; [discriminate|].
    intros H. now rewrite (IH H).
Qed.

Lemma split_join3 sep a b c :
  Py.count sep a = O -> Py.count sep b = O -> Py.count sep c = O ->
  Py.split sep (a ++ String sep (b ++ String sep c)) = [a; b; c].
Proof.
  intros Ha Hb Hc.
  now rewrite (split_app_sep _ _ _ Ha), (split_app_sep _ _ _ Hb), (split_no_sep _ _ Hc).
Qed.

(** ** Texts that [int] accepts hold no colon *)

Lemma all_space_no_colon s : Py.all_space s = true -> Py.count ":" s = O.
Proof.
  induction s as [|c s IH]; simpl; [reflexivity|].
  intros H. apply andb_prop in H as [Hc Hs].
  destruct (Ascii.eqb c ":") eqn:E.
  - apply Ascii.eqb_eq in E. subst c. discriminate Hc.
  - now rewrite (IH Hs).
Qed.

Lemma digit_not_colon c d : Py.digit_of c = Some d -> Ascii.eqb c ":" = false.
Proof.
  intros H. destruct (Ascii.eqb c ":") eqn:E; [|reflexivity].
  apply Ascii.eqb_eq in E. subst c. discriminate H.
Qed.

Lemma int_digits_no_colon n : forall s acc z,
  (String.length s <= n)%nat -> Py.int_digits acc s = Some z -> Py.count ":" s = O.
Proof.
  induction n as [|n IH]; intros [|c s] acc z Hlen H; simpl in *;
    try reflexivity; try lia.
  destruct (Py.digit_of c) as [d|] eqn:D.
  - rewrite (digit_not_colon _ _ D). simpl.
    eapply IH; [|exact H]. lia.
  - destruct (Ascii.eqb c "_") eqn:U.
    + apply Ascii.eqb_eq in U. subst c. simpl.
      destruct s as [|c' s]; [discriminate|].
      destruct (Py.digit_of c') as [d|] eqn:D'; [|discriminate].
      simpl. rewrite (digit_not_colon _ _ D'). simpl.
      simpl in Hlen. eapply IH; [|exact H]. lia.
    + destruct (Py.is_space c && Py.all_space s) eqn:A; [|discriminate].
      apply (all_space_no_colon (String c s)). exact A.
Qed.

Lemma int_unsigned_no_colon s z : Py.int_unsigned s = Some z -> Py.count ":" s = O.
Proof.
  destruct s as [|c s]; simpl; [discriminate|].
  destruct (Py.digit_of c) as [d|] eqn:D; [|discriminate].
  intros H. rewrite (digit_not_colon _ _ D). simpl.
  exact (int_digits_no_colon _ _ _ _ (le_n _) H).
Qed.

Lemma lstrip_count_colon s : Py.count ":" (Py.lstrip s) = Py.count ":" s.
Proof.
  induction s as [|c s IH]; simpl; [reflexivity|].
  destruct (Py.is_space c) eqn:Sp; [|reflexivity].
  destruct (Ascii.eqb c ":") eqn:E.
  - apply Ascii.eqb_eq in E. subst c. discriminate Sp.
  - exact IH.
Qed.

Lemma int_text_no_colon s z : Py.int_text s = Some z -> Py.count ":" s = O.
Proof.
  unfold Py.int_text. rewrite <- lstrip_count_colon.
  destruct (Py.lstrip s) as [|c t] eqn:L; [discriminate|].
  intros H.
  assert (Hu : forall u, Py.int_unsigned (String c t) = Some u ->
                         Py.count ":" (String c t) = O)
    by (intros u; apply int_unsigned_no_colon).
  destruct (Ascii.eqb c "+") eqn:Ep; [apply Ascii.eqb_eq in Ep; subst c|].
  { simpl. apply (int_unsigned_no_colon _ _ H). }
  destruct (Ascii.eqb c "-") eqn:Em; [apply Ascii.eqb_eq in Em; subst c|].
  { simpl. destruct (Py.int_unsigned t) as [u|] eqn:U; [|discriminate].
    apply (int_unsigned_no_colon _ _ U). }
  apply (Hu z). rewrite <- H.
  destruct c as [[] [] [] [] [] [] [] []]; try reflexivity; discriminate.
Qed.

Lemma denotes_no_colon default field z :
  denotes default field z -> Py.count ":" field = O.
Proof.
  intros [[-> _]|[_ H]]; [reflexivity|exact (int_text_no_colon _ _ H)].
Qed.

(** ** [range] and the labels of a resolved range *)

Lemma range_length start stop :
  List.length (Py.range start stop) = Z.to_nat (stop - start).
Proof. unfold Py.range. now rewrite length_map, length_seq. Qed.

Lemma range_empty start stop : stop <= start -> Py.range start stop = [].
Proof.
  intros H. unfold Py.range.
  replace (Z.to_nat (stop - start)) with O by lia. reflexivity.
Qed.

Lemma range_In start stop x : In x (Py.range start stop) <-> start <= x < stop.
Proof.
  unfold Py.range. rewrite in_map_iff. split.
  - intros (i & <- & Hi). apply in_seq in Hi. lia.
  - intros Hx. exists (Z.to_nat (x - start)). split; [lia|].
    apply in_seq. lia.
Qed.

Lemma range_nth start stop i d :
  (i < Z.to_nat (stop - start))%nat ->
  nth i (Py.range start stop) d = start + Z.of_nat i.
Proof.
  intros Hi. unfold Py.range.
  rewrite (nth_indep _ d (start + Z.of_nat 0)) by now rewrite length_map, length_seq.
  rewrite (map_nth (fun i => start + Z.of_nat i)), seq_nth by exact Hi.
  reflexivity.
Qed.

Lemma labels_items year first last : labels (year, first, last) = items year first last.
Proof. reflexivity. Qed.

Lemma items_length year first last :
  List.length (items year first last) = Z.to_nat (last + 1 - first).
Proof. unfold items. now rewrite length_map, range_length. Qed.

Lemma items_In year first last y x :
  In (y, x) (items year first last) <-> y = year /\ first <= x <= last.
Proof.
  unfold items. rewrite in_map_iff. split.
  - intros (x' & E & Hx). inversion E; subst. apply range_In in Hx. lia.
  - intros (-> & Hx). exists x. split; [reflexivity|]. apply range_In. lia.
Qed.

(** ** [ceil_log10] is the ceiling of the base-10 logarithm *)

Lemma ceil_log10_from_spec fuel : forall p k n,
  0 <= k -> p = 10 ^ k -> 10 ^ (k - 1) < n ->
  Z.log2_up n <= Z.of_nat fuel + k ->
  let c := Py.ceil_log10_from fuel p k n in
  k <= c /\ 10 ^ (c - 1) < n <= 10 ^ c.
Proof.
  induction fuel as [|fuel IH]; intros p k n Hk Hp Hlo Hfuel;
    cbn [Py.ceil_log10_from]; cbv zeta; destruct (n <=? p) eqn:T.
  - apply Z.leb_le in T. subst p. lia.
  - apply Z.leb_gt in T. subst p. exfalso.
    assert (0 < n) by (pose proof (Z.pow_pos_nonneg 10 k); lia).
    assert (n <= 2 ^ Z.log2_up n).
    { destruct (Z.eq_dec n 1) as [->|]; [reflexivity|].
      apply (Z.log2_up_spec n). lia. }
    assert (2 ^ Z.log2_up n <= 2 ^ k)
      by (apply Z.pow_le_mono_r; lia).
    assert (2 ^ k <= 10 ^ k) by (apply Z.pow_le_mono_l; lia).
    lia.
  - apply Z.leb_le in T. subst p. lia.
  - apply Z.leb_gt in T. subst p.
    destruct (IH (10 * 10 ^ k) (k + 1) n) as [Hc Hb].
    + lia.
    + rewrite Z.pow_add_r by lia. lia.
    + replace (k + 1 - 1) with k by lia. exact T.
    + lia.
    + split; [lia|exact Hb].
Qed.

Lemma ceil_log10_spec n :
  1 <= n ->
  0 <= Py.ceil_log10 n /\ 10 ^ (Py.ceil_log10 n - 1) < n <= 10 ^ Py.ceil_log10 n.
Proof.
  intros Hn. unfold Py.ceil_log10.
  apply ceil_log10_from_spec.
  - lia.
  - reflexivity.
  - simpl. lia.
  - pose proof (Z.log2_up_nonneg n). lia.
Qed.

(** The bounds of [ceil_log10_spec] single out one integer. *)
Lemma ceil_log10_unique n c :
  0 <= c -> 10 ^ (c - 1) < n <= 10 ^ c -> Py.ceil_log10 n = c.
Proof.
  intros Hc Hb.
  assert (Hn : 1 <= n).
  { pose proof (Z.pow_nonneg 10 (c - 1)). lia. }
  destruct (ceil_log10_spec n Hn) as [Hk Hk'].
  set (k := Py.ceil_log10 n) in *.
  destruct (Z.lt_trichotomy k c) as [L|[E|L]]; [|exact E|]; exfalso.
  - assert (10 ^ k <= 10 ^ (c - 1)) by (apply Z.pow_le_mono_r; lia). lia.
  - assert (10 ^ c <= 10 ^ (k - 1)) by (apply Z.pow_le_mono_r; lia). lia.
Qed.

Lemma ceil_log10_pos n : 2 <= n -> 1 <= Py.ceil_log10 n.
Proof.
  intros Hn. destruct (ceil_log10_spec n ltac:(lia)) as [H0 [_ Hu]].
  destruct (Z.eq_dec (Py.ceil_log10 n) 0) as [E|]; [|lia].
  rewrite E in Hu. simpl in Hu. lia.
Qed.

(** [ceil_log10] against the real logarithm. *)

Lemma ln_10_pos : (0 < ln 10)%R.
Proof. rewrite <- ln_1. apply ln_increasing; lra. Qed.

Lemma ln_pow10 k : 0 <= k -> ln (IZR (10 ^ k)) = (IZR k * ln 10)%R.
Proof.
  intros Hk. rewrite <- (Z2Nat.id k Hk) at 1.
  rewrite <- pow_IZR, ln_pow by lra.
  now rewrite INR_IZR_INZ, Z2Nat.id.
Qed.

Lemma ln_IZR_nonneg n : 1 <= n -> (0 <= ln (IZR n))%R.
Proof.
  intros Hn. destruct (Z.eq_dec n 1) as [->|Hne].
  - rewrite ln_1. lra.
  - left. rewrite <- ln_1. apply ln_increasing; [lra|]. apply IZR_lt. lia.
Qed.

Lemma log10_bounds n c :
  1 <= n -> 0 <= c -> 10 ^ (c - 1) < n <= 10 ^ c -> is_ceil (log10 n) c.
Proof.
  intros Hn Hc [Hlo Hhi]. unfold is_ceil, log10.
  pose proof ln_10_pos as L10.
  assert (Hn0 : (0 < IZR n)%R) by (apply IZR_lt; lia).
  split.
  - apply Rmult_lt_reg_r with (ln 10); [exact L10|].
    unfold Rdiv. rewrite Rmult_assoc, Rinv_l, Rmult_1_r by lra.
    destruct (Z.eq_dec c 0) as [->|Hne].
    + pose proof (ln_IZR_nonneg n Hn). lra.
    + replace (IZR c - 1)%R with (IZR (c - 1)) by (rewrite minus_IZR; reflexivity).
      rewrite <- ln_pow10 by lia.
      apply ln_increasing; [apply IZR_lt, Z.pow_pos_nonneg; lia|apply IZR_lt; exact Hlo].
  - apply Rmult_le_reg_r with (ln 10); [exact L10|].
    unfold Rdiv. rewrite Rmult_assoc, Rinv_l, Rmult_1_r by lra.
    rewrite <- ln_pow10 by lia.
    destruct (Z.eq_dec n (10 ^ c)) as [->|Hne]; [lra|].
    left. apply ln_increasing; [exact Hn0|apply IZR_lt; lia].
Qed.

Lemma ceil_log10_is_ceil n : 1 <= n -> is_ceil (log10 n) (Py.ceil_log10 n).
Proof.
  intros Hn. destruct (ceil_log10_spec n Hn) as [Hc Hb].
  exact (log10_bounds n _ Hn Hc Hb).
Qed.

Lemma is_ceil_unique x c c' : is_ceil x c -> is_ceil x c' -> c = c'.
Proof.
  unfold is_ceil. intros [H1 H2] [H1' H2'].
  assert (IZR c < IZR c' + 1)%R by lra.
  assert (IZR c' < IZR c + 1)%R by lra.
  rewrite <- plus_IZR in *.
  apply lt_IZR in H, H0. lia.
Qed.

(** ** Strings of zeros *)

Lemma str_mul_zeros n : Py.str_mul "0" n = zeros (Z.to_nat n).
Proof.
  unfold Py.str_mul. induction (Z.to_nat n) as [|k IH]; [reflexivity|].
  simpl. destruct (repeat "0" k) as [|z zs] eqn:R.
  - destruct k; [reflexivity|discriminate].
  - simpl in IH. rewrite <- IH. reflexivity.
Qed.

Lemma zeros_length k : String.length (zeros k) = k.
Proof. induction k; simpl; congruence. Qed.

(** ** [startswith] with a one-character prefix *)

Lemma startswith_char_iff s c :
  Py.startswith s (String c "") = true <-> exists t, s = String c t.
Proof.
  unfold Py.startswith. destruct s as [|c' t]; simpl.
  - split; [discriminate|]. intros [t H]. discriminate H.
  - destruct (ascii_dec c c') as [->|Hne].
    + split; [now exists t|]. intros _. destruct t; reflexivity.
    + split; [discriminate|]. intros [t' H]. inversion H. congruence.
Qed.

Lemma startswith_char s c : Py.startswith (String c s) (String c "") = true.
Proof. apply startswith_char_iff. now exists s. Qed.

(** ** [parse_cfg], case by case *)

Lemma parse_cfg_fields cfg p0 p1 p2 :
  Py.split ":" cfg = [p0; p1; p2] ->
  parse_cfg cfg =
    (year <- (if Py.truthy p0 then Py.int p0 else ret 0) ;;
     first <- (if Py.truthy p1 then Py.int p1 else ret 1) ;;
     last <- (if negb (Py.truthy p2) then ret (first + ROWS * COLS - 1)
              else if Py.startswith p2 "x" then
                     n <- Py.int (Py.slice_from_1 p2) ;;
                     ret (first + ROWS * n - 1)
              else Py.int p2) ;;
     ret (year, first, last)).
Proof. unfold parse_cfg. intros ->. reflexivity. Qed.

Lemma parse_cfg_malformed cfg :
  List.length (Py.split ":" cfg) <> 3%nat ->
  parse_cfg cfg = (["Error: invalid config: " ++ cfg], Return (0, 0, 0)).
Proof.
  unfold parse_cfg. intros H.
  destruct (Py.split ":" cfg) as [|p0 [|p1 [|p2 [|p3 ps]]]]; try reflexivity.
  now contradiction H.
Qed.

Lemma int_accepts s z : Py.int_text s = Some z -> Py.int s = ret z.
Proof. unfold Py.int. now intros ->. Qed.

Lemma int_rejects s : Py.int_text s = None -> Py.int s = raise ValueError.
Proof. unfold Py.int. now intros ->. Qed.

Lemma field_denotes default field z :
  denotes default field z ->
  (if Py.truthy field then Py.int field else ret default) = ret z.
Proof.
  intros [[-> ->]|[Hne H]]; [reflexivity|].
  destruct field; [congruence|]. simpl Py.truthy. exact (int_accepts _ _ H).
Qed.

Lemma field_rejected default field :
  field <> "" -> Py.int_text field = None ->
  (if Py.truthy field then Py.int field else ret default) = raise ValueError.
Proof.
  intros Hne H. destruct field; [congruence|]. simpl Py.truthy.
  exact (int_rejects _ H).
Qed.

(** A field is either given as a valid integer, left out, or rejected. *)
Lemma field_cases default field :
  (exists z, (if Py.truthy field then Py.int field else ret default) = ret z) \/
  (if Py.truthy field then Py.int field else ret default) = raise ValueError.
Proof.
  destruct field as [|c s]; simpl Py.truthy; [left; now exists default|].
  unfold Py.int. destruct (Py.int_text (String c s)) as [z|]; [left; now exists z|now right].
Qed.

Lemma parse_cfg_empty_last ys fs year first :
  denotes 0 ys year -> denotes 1 fs first ->
  parse_cfg (ys ++ ":" ++ fs ++ ":") = ret (year, first, first + ROWS * COLS - 1).
Proof.
  intros Hy Hf.
  rewrite (parse_cfg_fields _ ys fs "").
  - rewrite (field_denotes _ _ _ Hy), bind_ret, (field_denotes _ _ _ Hf), bind_ret.
    reflexivity.
  - apply (split_join3 ":" ys fs "");
      eauto using denotes_no_colon.
Qed.

Lemma parse_cfg_block_count ys fs ns year first n :
  denotes 0 ys year -> denotes 1 fs first -> Py.int_text ns = Some n ->
  parse_cfg (ys ++ ":" ++ fs ++ ":x" ++ ns) = ret (year, first, first + ROWS * n - 1).
Proof.
  intros Hy Hf Hn.
  rewrite (parse_cfg_fields _ ys fs (String "x" ns)).
  - rewrite (field_denotes _ _ _ Hy), bind_ret, (field_denotes _ _ _ Hf), bind_ret.
    cbn [Py.truthy negb Py.slice_from_1].
    rewrite startswith_char.
    rewrite (int_accepts _ _ Hn), !bind_ret. reflexivity.
  - apply (split_join3 ":" ys fs (String "x" ns));
      eauto using denotes_no_colon.
    simpl. exact (int_text_no_colon _ _ Hn).
Qed.

Lemma parse_cfg_explicit_last ys fs ls year first last :
  denotes 0 ys year -> denotes 1 fs first ->
  ls <> "" -> Py.startswith ls "x" = false -> Py.int_text ls = Some last ->
  parse_cfg (ys ++ ":" ++ fs ++ ":" ++ ls) = ret (year, first, last).
Proof.
  intros Hy Hf Hne Hx Hl.
  rewrite (parse_cfg_fields _ ys fs ls).
  - rewrite (field_denotes _ _ _ Hy), bind_ret, (field_denotes _ _ _ Hf), bind_ret.
    destruct ls as [|c ls]; [congruence|]. simpl Py.truthy. simpl negb.
    rewrite Hx, (int_accepts _ _ Hl). reflexivity.
  - apply (split_join3 ":" ys fs ls);
      eauto using denotes_no_colon, int_text_no_colon.
Qed.

(** ** The loop of [main] *)

Lemma collect_cons_Return cfg rest data out r :
  parse_cfg cfg = (out, Return r) ->
  collect (cfg :: rest) data =
    ((out ++ stdout (collect rest (data ++ labels r)))%list,
     result (collect rest (data ++ labels r))).
Proof.
  intros H. simpl. rewrite H. unfold bind, stdout, result.
  now destruct (collect rest (data ++ labels r)).
Qed.

Lemma collect_cons_Raise cfg rest data out e :
  parse_cfg cfg = (out, Raise e) -> collect (cfg :: rest) data = (out, Raise e).
Proof. intros H. simpl. now rewrite H. Qed.

Lemma collect_single cfg r : parse_cfg cfg = ret r -> collect [cfg] [] = ret (labels r).
Proof. intros H. simpl. rewrite H. reflexivity. Qed.

(** Every spec with a wrong field count prints the diagnostic and leaves the
    label of year 0 and serial 0 in [data]; the loop goes on. *)
Lemma collect_malformed cfg rest data :
  List.length (Py.split ":" cfg) <> 3%nat ->
  collect (cfg :: rest) data =
    (print ("Error: invalid config: " ++ cfg) ;;; collect rest (data ++ [(0, 0)])).
Proof.
  intros H. cbn [collect]. rewrite (parse_cfg_malformed _ H).
  unfold print, bind. change (labels (0, 0, 0)) with [(0, 0)].
  now destruct (collect rest (data ++ [(0, 0)])).
Qed.

(** Once a spec of the list raises, the whole loop ends in [ValueError]. *)
Lemma collect_raises cfg cfgs :
  In cfg cfgs -> parse_cfg cfg = raise ValueError ->
  forall data, exists out, collect cfgs data = (out, Raise ValueError).
Proof.
  intros Hin Hr. induction cfgs as [|c cfgs IH]; [contradiction|].
  intros data. destruct Hin as [->|Hin].
  - exists []. exact (collect_cons_Raise _ _ _ _ _ Hr).
  - destruct (parse_cfg c) as [out [r|[]]] eqn:P.
    + destruct (IH Hin (data ++ labels r)%list) as [out' H'].
      exists (out ++ out')%list.
      rewrite (collect_cons_Return _ _ _ _ _ P), H'. reflexivity.
    + exists out. exact (collect_cons_Raise _ _ _ _ _ P).
Qed.

(** ** [endswith] *)

Lemma endswith_iff s suf : Py.endswith s suf = true <-> exists pre, s = pre ++ suf.
Proof.
  induction s as [|c s IH]; cbn [Py.endswith].
  - destruct (String.eqb "" suf) eqn:E.
    + apply String.eqb_eq in E. subst suf. split; [now exists ""|reflexivity].
    + split; [discriminate|]. intros [pre H].
      destruct pre; simpl in H; [|discriminate].
      subst suf. rewrite String.eqb_refl in E. discriminate E.
  - destruct (String.eqb (String c s) suf) eqn:E.
    + apply String.eqb_eq in E. subst suf. split; [now exists ""|reflexivity].
    + rewrite IH. split.
      * intros [pre ->]. now exists (String c pre).
      * intros [[|c' pre] H]; simpl in H.
        -- subst suf. rewrite String.eqb_refl in E. discriminate.
        -- inversion H; subst. now exists pre.
Qed.

(** ** [values] on the serials the label data can hold *)

Lemma values_nonneg year sn :
  0 <= sn ->
  values year sn =
    ret (Py.format_0d 4 sn,
         "ASN" ++ Py.format_0d 2 year ++ Py.format_0d 4 sn,
         zeros (Z.to_nat (4 - Py.ceil_log10 (sn + 1))),
         nth (Z.to_nat (year mod 8)) colors "").
Proof.
  intros Hsn. unfold values, Py.math_ceil_log10.
  destruct (sn + 1 <=? 0) eqn:T; [apply Z.leb_le in T; lia|].
  rewrite bind_ret, str_mul_zeros. reflexivity.
Qed.

Lemma values_negative year sn : sn < 0 -> values year sn = raise ValueError.
Proof.
  intros Hsn. unfold values, Py.math_ceil_log10.
  destruct (sn + 1 <=? 0) eqn:T; [reflexivity|apply Z.leb_gt in T; lia].
Qed.

(** * The claims *)

(** C1, on the code as it is.  A spec whose split on ':' does not give three
    fields, here "a:b" followed by the well-formed "23:1:2": the diagnostic is
    printed, the range (0, 0, 0) takes the place of the spec and the loop goes
    on to the next spec.  The range put in its place is not empty: it
    leaves one label, year 0 and serial 0, in the data. *)
Theorem C1_malformed_spec_leaves_label_zero :
  List.length (Py.split ":" "a:b") = 2%nat /\
  parse_cfg "a:b" = (["Error: invalid config: a:b"], Return (0, 0, 0)) /\
  labels (0, 0, 0) = [(0, 0)] /\
  main {| args_cfg := ["a:b"; "23:1:2"]; args_output := default_output |}
    = (["Error: invalid config: a:b"],
       Return ([(0, 0); (23, 1); (23, 2)], "output.pdf")).
Proof. repeat split; reflexivity. Qed.

(** C2.  For an input year:first:xN, whose year and first fields are empty or
    integer texts and whose N is an integer text, the parser returns
    last = first + ROWS * N - 1 with ROWS = 16, and the spec alone expands to
    the labels first .. first + 16 * N - 1 of that year. *)
Theorem C2_block_count_last ys fs ns year first n :
  denotes 0 ys year -> denotes 1 fs first -> Py.int_text ns = Some n ->
  ROWS = 16 /\
  parse_cfg (ys ++ ":" ++ fs ++ ":x" ++ ns)
    = ret (year, first, first + ROWS * n - 1) /\
  collect [ys ++ ":" ++ fs ++ ":x" ++ ns] []
    = ret (items year first (first + 16 * n - 1)).
Proof.
  intros Hy Hf Hn.
  pose proof (parse_cfg_block_count _ _ _ _ _ _ Hy Hf Hn) as P.
  split; [reflexivity|]. split; [exact P|].
  rewrite (collect_single _ _ P). reflexivity.
Qed.

(** "5:10:x2" gives the 32 labels (5,10) .. (5,41). *)
Lemma C2_block_count_last_witness :
  denotes 0 "5" 5 /\ denotes 1 "10" 10 /\ Py.int_text "2" = Some 2 /\
  collect ["5:10:x2"] [] = ret (items 5 10 41) /\
  List.length (items 5 10 41) = 32%nat /\
  nth_error (items 5 10 41) 0 = Some (5, 10) /\
  nth_error (items 5 10 41) 31 = Some (5, 41).
Proof.
  assert (Hy : denotes 0 "5" 5) by field_given.
  assert (Hf : denotes 1 "10" 10) by field_given.
  assert (Hn : Py.int_text "2" = Some 2) by reflexivity.
  split; [exact Hy|]. split; [exact Hf|]. split; [exact Hn|].
  split; [exact (proj2 (proj2 (C2_block_count_last "5" "10" "2" 5 10 2 Hy Hf Hn)))|].
  repeat split; reflexivity.
Defined.

(** C3.  For an input year:first: with an empty last field, the parser
    returns last = first + CELLS - 1, where CELLS = ROWS * COLS = 16 * 5 = 80
    is the capacity of one page, and the spec alone expands to the labels
    first .. first + 79 of that year. *)
Theorem C3_empty_last_fills_one_page ys fs year first :
  denotes 0 ys year -> denotes 1 fs first ->
  CELLS = ROWS * COLS /\ CELLS = 80 /\
  parse_cfg (ys ++ ":" ++ fs ++ ":") = ret (year, first, first + CELLS - 1) /\
  collect [ys ++ ":" ++ fs ++ ":"] [] = ret (items year first (first + 80 - 1)).
Proof.
  intros Hy Hf.
  pose proof (parse_cfg_empty_last _ _ _ _ Hy Hf) as P.
  split; [reflexivity|]. split; [reflexivity|]. split; [exact P|].
  rewrite (collect_single _ _ P). reflexivity.
Qed.

(** "0:1:" gives the 80 labels (0,1) .. (0,80). *)
Lemma C3_empty_last_fills_one_page_witness :
  denotes 0 "0" 0 /\ denotes 1 "1" 1 /\
  collect ["0:1:"] [] = ret (items 0 1 80) /\
  List.length (items 0 1 80) = 80%nat /\
  nth_error (items 0 1 80) 0 = Some (0, 1) /\
  nth_error (items 0 1 80) 79 = Some (0, 80).
Proof.
  assert (Hy : denotes 0 "0" 0) by field_given.
  assert (Hf : denotes 1 "1" 1) by field_given.
  split; [exact Hy|]. split; [exact Hf|].
  split; [exact (proj2 (proj2 (proj2
            (C3_empty_last_fills_one_page "0" "1" 0 1 Hy Hf))))|].
  repeat split; reflexivity.
Defined.

(** C4 as stated fails: "5:10:x2" expands to 2 * 16 = 32 labels, not to
    2 * 80 = 160. *)
Lemma C4_block_count_is_not_pages :
  collect ["5:10:x2"] [] = ret (items 5 10 41) /\
  Z.of_nat (List.length (items 5 10 41)) = 2 * ROWS /\
  Z.of_nat (List.length (items 5 10 41)) <> 2 * CELLS.
Proof. repeat split; try reflexivity. discriminate. Qed.

(** C4, amended.  The "x<N>" shorthand means N blocks of ROWS = 16 labels
    (N columns of a page): for an input year:first:xN the expansion has
    16 * N items, none when N is negative. *)
Theorem C4_block_count_columns ys fs ns year first n :
  denotes 0 ys year -> denotes 1 fs first -> Py.int_text ns = Some n ->
  exists data,
    collect [ys ++ ":" ++ fs ++ ":x" ++ ns] [] = ret data /\
    Z.of_nat (List.length data) = Z.max 0 (16 * n) /\
    16 = ROWS.
Proof.
  intros Hy Hf Hn.
  exists (items year first (first + ROWS * n - 1)). split.
  - rewrite (collect_single _ _ (parse_cfg_block_count _ _ _ _ _ _ Hy Hf Hn)).
    reflexivity.
  - rewrite items_length. unfold ROWS. split; [lia|reflexivity].
Qed.

Lemma C4_block_count_columns_witness :
  denotes 0 "5" 5 /\ denotes 1 "10" 10 /\ Py.int_text "2" = Some 2 /\
  exists data,
    collect ["5:10:x2"] [] = ret data /\
    Z.of_nat (List.length data) = Z.max 0 (16 * 2) /\
    16 = ROWS.
Proof.
  assert (Hy : denotes 0 "5" 5) by field_given.
  assert (Hf : denotes 1 "10" 10) by field_given.
  assert (Hn : Py.int_text "2" = Some 2) by reflexivity.
  split; [exact Hy|]. split; [exact Hf|]. split; [exact Hn|].
  exact (C4_block_count_columns "5" "10" "2" 5 10 2 Hy Hf Hn).
Defined.

(** C5.  For every serial sn >= 0 the deriver succeeds and its zeroFill is
    exactly max(0, 4 - c) zero characters, where c is the ceiling of the real
    log10(sn + 1), that is the integer with 10^(c-1) < sn + 1 <= 10^c.  The
    shift by one shows at the powers of ten: serial 9 gives "000", serial 10
    gives "00". *)
Theorem C5_zero_fill year sn :
  0 <= sn ->
  exists id4 asn zero4 fg c,
    values year sn = ret (id4, asn, zero4, fg) /\
    is_ceil (log10 (sn + 1)) c /\
    0 <= c /\ 10 ^ (c - 1) < sn + 1 <= 10 ^ c /\
    zero4 = zeros (Z.to_nat (Z.max 0 (4 - c))) /\
    (sn = 9 -> zero4 = "000") /\
    (sn = 10 -> zero4 = "00").
Proof.
  intros Hsn.
  exists (Py.format_0d 4 sn), ("ASN" ++ Py.format_0d 2 year ++ Py.format_0d 4 sn),
    (zeros (Z.to_nat (4 - Py.ceil_log10 (sn + 1)))),
    (nth (Z.to_nat (year mod 8)) colors ""), (Py.ceil_log10 (sn + 1)).
  destruct (ceil_log10_spec (sn + 1) ltac:(lia)) as [Hc Hb].
  split; [exact (values_nonneg year sn Hsn)|].
  split; [exact (ceil_log10_is_ceil (sn + 1) ltac:(lia))|].
  split; [exact Hc|]. split; [exact Hb|].
  split; [f_equal; lia|].
  split; intros ->; reflexivity.
Qed.

Lemma C5_zero_fill_witness :
  0 <= 9 /\
  exists id4 asn zero4 fg c,
    values 23 9 = ret (id4, asn, zero4, fg) /\
    is_ceil (log10 (9 + 1)) c /\
    0 <= c /\ 10 ^ (c - 1) < 9 + 1 <= 10 ^ c /\
    zero4 = zeros (Z.to_nat (Z.max 0 (4 - c))) /\
    (9 = 9 -> zero4 = "000") /\
    (9 = 10 -> zero4 = "00").
Proof.
  assert (H : 0 <= 9) by lia.
  split; [exact H|]. exact (C5_zero_fill 23 9 H).
Defined.

(** C6.  values(1, 7) returns idPadded "0007", code "ASN010007", which is the
    literal "ASN", the year on two digits and idPadded, zeroFill "000", and
    the colour at index 1 of the palette of 8 entries. *)
Theorem C6_values_1_7 :
  values 1 7 = ret ("0007", "ASN010007", "000", "#cec323") /\
  "ASN010007" = "ASN" ++ Py.format_0d 2 1 ++ "0007" /\
  nth_error colors 1 = Some "#cec323" /\
  List.length colors = 8%nat.
Proof. repeat split; reflexivity. Qed.

(** C7.  Whenever the parser returns a range with last < first, and it
    returns whatever the fields spell without comparing them, that spec adds
    no label and raises nothing: the loop carries on with the data it had. *)
Theorem C7_inverted_range_adds_nothing cfg out year first last rest data :
  parse_cfg cfg = (out, Return (year, first, last)) -> last < first ->
  labels (year, first, last) = [] /\
  collect (cfg :: rest) data
    = ((out ++ stdout (collect rest data))%list, result (collect rest data)).
Proof.
  intros P Hinv.
  assert (E : labels (year, first, last) = []).
  { unfold labels. rewrite range_empty by lia. reflexivity. }
  split; [exact E|].
  rewrite (collect_cons_Return _ _ _ _ _ P), E, app_nil_r. reflexivity.
Qed.

(** "0:5:3" is parsed to (0, 5, 3) and adds nothing before "0:1:2". *)
Lemma C7_inverted_range_adds_nothing_witness :
  parse_cfg "0:5:3" = ([], Return (0, 5, 3)) /\ 3 < 5 /\
  labels (0, 5, 3) = [] /\
  collect ["0:5:3"; "0:1:2"] [] = ([], Return [(0, 1); (0, 2)]).
Proof.
  assert (P : parse_cfg "0:5:3" = ([], Return (0, 5, 3))) by reflexivity.
  assert (L : 3 < 5) by lia.
  split; [exact P|]. split; [exact L|].
  exact (C7_inverted_range_adds_nothing "0:5:3" [] 0 5 3 ["0:1:2"] [] P L).
Defined.

(** C8.  For a spec of three fields in which the year, the first, an explicit
    last, or the text after the 'x' is given and is not integer text,
    [parse_cfg] raises ValueError, printing nothing and returning no range in
    its place; nothing catches it, so the loop of [main] and [main] itself
    end in ValueError for every command line that holds this spec. *)
Theorem C8_bad_integer_text_raises cfg ys fs ls :
  Py.split ":" cfg = [ys; fs; ls] ->
  (ys <> "" /\ Py.int_text ys = None) \/
  (fs <> "" /\ Py.int_text fs = None) \/
  (ls <> "" /\ Py.startswith ls "x" = false /\ Py.int_text ls = None) \/
  (exists ns, ls = "x" ++ ns /\ Py.int_text ns = None) ->
  parse_cfg cfg = ([], Raise ValueError) /\
  (forall rest data, collect (cfg :: rest) data = ([], Raise ValueError)) /\
  (forall a, In cfg (args_cfg a) -> exists out, main a = (out, Raise ValueError)).
Proof.
  intros Hsplit Hbad.
  assert (P : parse_cfg cfg = raise ValueError).
  { rewrite (parse_cfg_fields _ _ _ _ Hsplit).
    destruct Hbad as [[Hne H]|Hbad].
    { rewrite (field_rejected _ _ Hne H). reflexivity. }
    destruct (field_cases 0 ys) as [[year ->]| ->]; [rewrite bind_ret|reflexivity].
    destruct Hbad as [[Hne H]|Hbad].
    { rewrite (field_rejected _ _ Hne H). reflexivity. }
    destruct (field_cases 1 fs) as [[first ->]| ->]; [rewrite bind_ret|reflexivity].
    destruct Hbad as [(Hne & Hx & H)|(ns & -> & H)].
    - destruct ls as [|c ls]; [congruence|]. cbn [Py.truthy negb].
      rewrite Hx, (int_rejects _ H). reflexivity.
    - change ("x" ++ ns) with (String "x" ns). cbn [Py.truthy negb Py.slice_from_1].
      rewrite startswith_char, (int_rejects _ H). reflexivity. }
  split; [exact P|]. split.
  - intros rest data. exact (collect_cons_Raise _ _ _ _ _ P).
  - intros a Hin. destruct (collect_raises _ _ Hin P []) as [out H].
    exists out. unfold main. rewrite H. reflexivity.
Qed.

(** "a:1:2": the year field is not integer text. *)
Lemma C8_bad_integer_text_raises_witness :
  Py.split ":" "a:1:2" = ["a"; "1"; "2"] /\
  ("a" <> "" /\ Py.int_text "a" = None) /\
  parse_cfg "a:1:2" = ([], Raise ValueError) /\
  (forall rest data, collect ("a:1:2" :: rest) data = ([], Raise ValueError)) /\
  (forall a, In "a:1:2" (args_cfg a) -> exists out, main a = (out, Raise ValueError)).
Proof.
  assert (S : Py.split ":" "a:1:2" = ["a"; "1"; "2"]) by reflexivity.
  assert (B : "a" <> "" /\ Py.int_text "a" = None) by (split; [discriminate|reflexivity]).
  split; [exact S|]. split; [exact B|].
  exact (C8_bad_integer_text_raises "a:1:2" "a" "1" "2" S (or_introl B)).
Defined.

(** C9 as stated fails: with the default --output value the file opened is
    "output.pdf", not "output.pdf.pdf". *)
Lemma C9_default_output_has_one_suffix :
  default_output = "output.pdf" /\
  output_pdf default_output = "output.pdf" /\
  output_pdf default_output <> "output.pdf.pdf".
Proof. repeat split; try reflexivity. discriminate. Qed.

(** C9, amended.  The output name is kept when it ends in ".pdf" and gets
    ".pdf" appended otherwise; the default "output.pdf" ends in ".pdf", so a
    run with the default writes "output.pdf". *)
Theorem C9_output_suffix :
  (forall output,
     ((exists stem, output = stem ++ ".pdf") /\ output_pdf output = output) \/
     ((~ exists stem, output = stem ++ ".pdf") /\
      output_pdf output = output ++ ".pdf")) /\
  (forall cfgs,
     main {| args_cfg := cfgs; args_output := default_output |}
       = (data <- collect cfgs [] ;; ret (data, "output.pdf"))).
Proof.
  split.
  - intros output. unfold output_pdf.
    destruct (Py.endswith output ".pdf") eqn:E; [left|right].
    + split; [now apply endswith_iff|reflexivity].
    + split; [|reflexivity]. intros H. apply endswith_iff in H. congruence.
  - intros cfgs. reflexivity.
Qed.

(** C10.  The deriver is defined at serial 0, the serial that the range
    (0, 0, 0) put in place of a malformed spec brings in: for every year >= 0,
    values(year, 0) returns idPadded "0000" and zeroFill "0000", while every
    positive serial gets at most three filler zeros (serial 1 gets three). *)
Theorem C10_values_at_serial_zero year :
  0 <= year ->
  labels (0, 0, 0) = [(0, 0)] /\
  values year 0
    = ret ("0000", "ASN" ++ Py.format_0d 2 year ++ "0000", "0000",
           nth (Z.to_nat (year mod 8)) colors "") /\
  (forall sn, 0 < sn ->
     exists id4 asn zero4 fg,
       values year sn = ret (id4, asn, zero4, fg) /\
       (String.length zero4 <= 3)%nat) /\
  (exists id4 asn fg, values year 1 = ret (id4, asn, "000", fg)).
Proof.
  intros _. split; [reflexivity|]. split; [|split].
  - exact (values_nonneg year 0 ltac:(lia)).
  - intros sn Hsn. rewrite (values_nonneg year sn) by lia.
    do 4 eexists. split; [reflexivity|].
    rewrite zeros_length.
    pose proof (ceil_log10_pos (sn + 1) ltac:(lia)). lia.
  - rewrite (values_nonneg year 1) by lia. eauto.
Qed.

Lemma C10_values_at_serial_zero_witness :
  0 <= 0 /\
  labels (0, 0, 0) = [(0, 0)] /\
  values 0 0
    = ret ("0000", "ASN" ++ Py.format_0d 2 0 ++ "0000", "0000",
           nth (Z.to_nat (0 mod 8)) colors "") /\
  (forall sn, 0 < sn ->
     exists id4 asn zero4 fg,
       values 0 sn = ret (id4, asn, zero4, fg) /\
       (String.length zero4 <= 3)%nat) /\
  (exists id4 asn fg, values 0 1 = ret (id4, asn, "000", fg)).
Proof.
  assert (H : 0 <= 0) by lia.
  split; [exact H|]. exact (C10_values_at_serial_zero 0 H).
Defined.

(** * Further properties of the code *)

(** ** Decimal texts: what [f"{z}"] prints and [int] reads back *)

Lemma uint_val_of_uint_acc d : forall acc,
  Z.pos (Pos.of_uint_acc d acc) = uint_val (Z.pos acc) d.
Proof.
  induction d; intros acc; cbn [Pos.of_uint_acc uint_val];
    try reflexivity; rewrite IHd; f_equal; lia.
Qed.

Lemma uint_val_of_uint d : Z.of_N (Pos.of_uint d) = uint_val 0 d.
Proof.
  induction d; simpl; try reflexivity; try exact IHd;
    apply uint_val_of_uint_acc.
Qed.

Lemma uint_val_to_uint n : uint_val 0 (N.to_uint n) = Z.of_N n.
Proof.
  rewrite <- uint_val_of_uint.
  change (Pos.of_uint (N.to_uint n)) with (N.of_uint (N.to_uint n)).
  now rewrite DecimalN.Unsigned.of_to.
Qed.

Lemma uint_val_split d : forall acc,
  uint_val acc d = acc * 10 ^ Z.of_nat (Decimal.nb_digits d) + uint_val 0 d /\
  0 <= uint_val 0 d < 10 ^ Z.of_nat (Decimal.nb_digits d).
Proof.
  induction d; intros acc; cbn [uint_val Decimal.nb_digits];
    try (simpl; lia);
    rewrite Nat2Z.inj_succ, Z.pow_succ_r by lia;
    match goal with
    | |- context [uint_val (10 * acc + ?k) d] =>
        destruct (IHd (10 * acc + k)) as [-> Hb];
        destruct (IHd (10 * 0 + k)) as [-> _]
    end; nia.
Qed.

Lemma string_of_uint_length d :
  String.length (NilEmpty.string_of_uint d) = Decimal.nb_digits d.
Proof. induction d; simpl; congruence. Qed.

Lemma int_digits_string_of_uint d : forall acc,
  Py.int_digits acc (NilEmpty.string_of_uint d) = Some (uint_val acc d).
Proof. induction d; intros acc; simpl; try reflexivity; apply IHd. Qed.

Lemma nzhead_not_D0 d d' : Decimal.nzhead d <> Decimal.D0 d'.
Proof. induction d; simpl; try discriminate. exact IHd. Qed.

(** The digits of a positive number do not start with 0. *)
Lemma to_uint_head p d' : Pos.to_uint p <> Decimal.D0 d'.
Proof.
  intros E.
  pose proof (DecimalPos.Unsigned.to_of (Pos.to_uint p)) as H.
  rewrite DecimalPos.Unsigned.of_to in H.
  change (N.to_uint (N.pos p)) with (Pos.to_uint p) in H.
  rewrite E in H. rewrite DecimalFacts.unorm_D0 in H. unfold Decimal.unorm in H.
  destruct (Decimal.nzhead d') eqn:N;
    try (rewrite <- N in H; symmetry in H; exact (nzhead_not_D0 _ _ H)).
  injection H as ->.
  pose proof (DecimalPos.Unsigned.of_to p) as O. rewrite E in O.
  discriminate O.
Qed.

Lemma decimal_as_digits n :
  1 <= n ->
  exists d, Py.decimal n = NilEmpty.string_of_uint d /\ uint_val 0 d = n /\
            (forall d', d <> Decimal.D0 d') /\ d <> Decimal.Nil.
Proof.
  intros Hn. unfold Py.decimal.
  destruct (Z.to_N n) as [|p] eqn:E; [lia|].
  exists (Pos.to_uint p). change (N.to_uint (N.pos p)) with (Pos.to_uint p).
  pose proof (DecimalPos.Unsigned.to_uint_nonnil p) as NN.
  repeat split.
  - unfold NilZero.string_of_uint. destruct (Pos.to_uint p); congruence.
  - change (Pos.to_uint p) with (N.to_uint (N.pos p)).
    rewrite uint_val_to_uint, <- E. lia.
  - intros d'. apply to_uint_head.
  - exact NN.
Qed.

(** A positive number is printed with as many digits as its size asks for:
    [10 ^ (len - 1) <= n < 10 ^ len]. *)
Lemma decimal_length n :
  1 <= n ->
  10 ^ (Z.of_nat (String.length (Py.decimal n)) - 1) <= n
    < 10 ^ Z.of_nat (String.length (Py.decimal n)).
Proof.
  intros Hn. destruct (decimal_as_digits n Hn) as (d & -> & V & Hd & NN).
  rewrite string_of_uint_length.
  destruct (uint_val_split d 0) as [_ Hb]. rewrite V in Hb.
  split; [|lia].
  destruct d as [|d|d|d|d|d|d|d|d|d|d];
    try congruence; try (exfalso; exact (Hd d eq_refl));
    cbn [uint_val Decimal.nb_digits] in *;
    rewrite Nat2Z.inj_succ;
    replace (Z.succ (Z.of_nat (Decimal.nb_digits d)) - 1)
      with (Z.of_nat (Decimal.nb_digits d)) by lia;
    match type of V with
    | uint_val ?a d = n => destruct (uint_val_split d a) as [E _]
    end;
    destruct (uint_val_split d 0) as [_ Hb'];
    pose proof (Z.pow_pos_nonneg 10 (Z.of_nat (Decimal.nb_digits d)));
    nia.
Qed.

Lemma decimal_zero : Py.decimal 0 = "0".
Proof. reflexivity. Qed.

(** The digits of [n] are as many as the ceiling of [log10 (n + 1)]. *)
Lemma decimal_length_ceil_log10 n :
  1 <= n -> Z.of_nat (String.length (Py.decimal n)) = Py.ceil_log10 (n + 1).
Proof.
  intros Hn. symmetry. apply ceil_log10_unique; [lia|].
  pose proof (decimal_length n Hn). lia.
Qed.

(** [int] reads the digits of a number back, after any run of zeros. *)
Lemma int_digits_decimal n acc :
  0 <= n ->
  Py.int_digits acc (Py.decimal n)
    = Some (acc * 10 ^ Z.of_nat (String.length (Py.decimal n)) + n).
Proof.
  intros Hn. destruct (Z.eq_dec n 0) as [->|Hne].
  - change (Py.decimal 0) with "0".
    change (Py.int_digits acc "0") with (Some (10 * acc + 0)).
    change (Z.of_nat (String.length "0")) with 1. f_equal. lia.
  - destruct (decimal_as_digits n ltac:(lia)) as (d & -> & V & _).
    rewrite int_digits_string_of_uint, string_of_uint_length.
    destruct (uint_val_split d acc) as [-> _]. now rewrite V.
Qed.

Lemma int_digits_zeros k : forall s, Py.int_digits 0 (zeros k ++ s) = Py.int_digits 0 s.
Proof. induction k; intros s; [reflexivity|]. simpl. apply IHk. Qed.

(** A text that starts with a digit is read as a number by its digits. *)
Lemma int_text_digits c s d :
  Py.digit_of c = Some d ->
  Py.int_text (String c s) = Py.int_digits 0 (String c s).
Proof.
  intros D.
  destruct c as [[] [] [] [] [] [] [] []]; try discriminate D; reflexivity.
Qed.

Lemma decimal_head n :
  0 <= n -> exists c s d, Py.decimal n = String c s /\ Py.digit_of c = Some d.
Proof.
  intros Hn. destruct (Z.eq_dec n 0) as [->|Hne].
  - exists "0"%char, "", 0. split; reflexivity.
  - destruct (decimal_as_digits n ltac:(lia)) as (d & -> & _ & _ & NN).
    destruct d; try congruence; simpl; do 3 eexists; split; reflexivity.
Qed.

Lemma zfill_zeros width s :
  Py.zfill width s = zeros (width - String.length s) ++ s.
Proof.
  unfold Py.zfill. f_equal.
  induction (width - String.length s)%nat as [|k IH]; [reflexivity|].
  simpl. destruct (repeat "0" k) as [|z zs] eqn:R.
  - destruct k; [reflexivity|discriminate].
  - simpl in IH. rewrite <- IH. reflexivity.
Qed.

Lemma int_unsigned_digits c s d :
  Py.digit_of c = Some d ->
  Py.int_unsigned (String c s) = Py.int_digits 0 (String c s).
Proof.
  intros D. cbn [Py.int_unsigned Py.int_digits]. rewrite D.
  f_equal; lia.
Qed.

Lemma int_text_minus s :
  Py.int_text (String "-" s) = option_map Z.opp (Py.int_unsigned s).
Proof. reflexivity. Qed.

(** Zeros, then the digits of [n]: a text that starts with a digit and
    spells [n]. *)
Lemma padded_decimal k n :
  0 <= n ->
  Py.int_digits 0 (zeros k ++ Py.decimal n) = Some n /\
  exists c s d, zeros k ++ Py.decimal n = String c s /\ Py.digit_of c = Some d.
Proof.
  intros Hn. split.
  - rewrite int_digits_zeros, int_digits_decimal by exact Hn. f_equal; lia.
  - destruct k as [|k]; [exact (decimal_head n Hn)|].
    exists "0"%char, (zeros k ++ Py.decimal n), 0. split; reflexivity.
Qed.

(** Reading back what [f"{z:0<width>d}"] printed gives [z]. *)
Lemma int_text_format_0d width z : Py.int_text (Py.format_0d width z) = Some z.
Proof.
  unfold Py.format_0d. rewrite !zfill_zeros. destruct (z <? 0) eqn:S.
  - apply Z.ltb_lt in S.
    destruct (padded_decimal (width - 1 - String.length (Py.decimal (- z))) (- z))
      as [R (c & s & d & E & D)]; [lia|].
    change ("-" ++ ?t) with (String "-" t). rewrite int_text_minus.
    rewrite E in *. rewrite (int_unsigned_digits _ _ _ D), R.
    simpl. f_equal. lia.
  - apply Z.ltb_ge in S.
    destruct (padded_decimal (width - String.length (Py.decimal z)) z S)
      as [R (c & s & d & E & D)].
    rewrite E in *. rewrite (int_text_digits _ _ _ D). exact R.
Qed.

(** ** [values]: when it fails, and how its four results hang together *)

Lemma values_cases year sn :
  values year sn =
    if sn <? 0 then raise ValueError
    else ret (Py.format_0d 4 sn,
              "ASN" ++ Py.format_0d 2 year ++ Py.format_0d 4 sn,
              zeros (Z.to_nat (4 - Py.ceil_log10 (sn + 1))),
              nth (Z.to_nat (year mod 8)) colors "").
Proof.
  destruct (sn <? 0) eqn:S.
  - apply Z.ltb_lt in S. exact (values_negative year sn S).
  - apply Z.ltb_ge in S. exact (values_nonneg year sn S).
Qed.

(** Inverting a successful call. *)
Lemma values_ret year sn id4 asn zero4 fg :
  values year sn = ret (id4, asn, zero4, fg) ->
  0 <= sn /\
  id4 = Py.format_0d 4 sn /\
  asn = "ASN" ++ Py.format_0d 2 year ++ id4 /\
  zero4 = zeros (Z.to_nat (4 - Py.ceil_log10 (sn + 1))) /\
  fg = nth (Z.to_nat (year mod 8)) colors "".
Proof.
  rewrite values_cases. destruct (sn <? 0) eqn:S; [discriminate|].
  apply Z.ltb_ge in S. intros [= <- <- <- <-]. repeat split; trivial.
Qed.

Lemma format_0d_nonneg width z :
  0 <= z ->
  Py.format_0d width z = zeros (width - String.length (Py.decimal z)) ++ Py.decimal z.
Proof.
  intros Hz. unfold Py.format_0d.
  destruct (z <? 0) eqn:S; [apply Z.ltb_lt in S; lia|apply zfill_zeros].
Qed.

Lemma append_length s t : String.length (s ++ t) = (String.length s + String.length t)%nat.
Proof. induction s; simpl; congruence. Qed.

Lemma format_0d_length width z :
  0 <= z ->
  String.length (Py.format_0d width z) = Nat.max width (String.length (Py.decimal z)).
Proof.
  intros Hz. rewrite (format_0d_nonneg _ _ Hz), append_length, zeros_length. lia.
Qed.

(** How many digits a number below a power of ten takes. *)
Lemma decimal_length_le n k :
  0 <= n -> (0 < k)%nat ->
  (String.length (Py.decimal n) <= k)%nat <-> n < 10 ^ Z.of_nat k.
Proof.
  intros Hn Hk. destruct (Z.eq_dec n 0) as [->|Hne].
  - change (String.length (Py.decimal 0)) with 1%nat.
    pose proof (Z.pow_pos_nonneg 10 (Z.of_nat k)). split; lia.
  - pose proof (decimal_length n ltac:(lia)) as [Lo Hi].
    set (L := String.length (Py.decimal n)) in *. split; intros H.
    + assert (10 ^ Z.of_nat L <= 10 ^ Z.of_nat k) by (apply Z.pow_le_mono_r; lia).
      lia.
    + destruct (Nat.le_gt_cases L k) as [|G]; [assumption|exfalso].
      assert (10 ^ Z.of_nat k <= 10 ^ (Z.of_nat L - 1)) by (apply Z.pow_le_mono_r; lia).
      lia.
Qed.

Lemma append_inj_length a b a' b' :
  a ++ b = a' ++ b' -> String.length a = String.length a' -> a = a' /\ b = b'.
Proof.
  revert a'. induction a as [|c a IH]; intros [|c' a'] E L; simpl in *;
    try discriminate; [now split|].
  injection E as -> E. destruct (IH a' E) as [-> ->]; [lia|now split].
Qed.

(** [values] fails exactly on a negative serial, whatever the year: then it
    raises ValueError (the logarithm of a number below 1) and nothing else
    ever makes it fail. *)
Theorem values_raises_iff_negative_serial year sn :
  (values year sn = ([], Raise ValueError) <-> sn < 0) /\
  ((exists v, values year sn = ([], Return v)) <-> 0 <= sn).
Proof.
  rewrite values_cases. destruct (sn <? 0) eqn:S.
  - apply Z.ltb_lt in S. split; split; trivial; try lia.
    intros [v H]. discriminate H.
  - apply Z.ltb_ge in S. split; split; try lia; try discriminate.
    intros _. eexists. reflexivity.
Qed.

(** The colour is always an entry of the palette, for a negative year too,
    and comes back every 8 years. *)
Theorem values_colour_in_palette year sn v v' :
  values year sn = ret v -> values (year + 8) sn = ret v' ->
  In (snd v) colors /\ snd v' = snd v.
Proof.
  destruct v as [[[id4 asn] zero4] fg], v' as [[[id4' asn'] zero4'] fg'].
  intros H H'.
  apply values_ret in H as (_ & _ & _ & _ & ->).
  apply values_ret in H' as (_ & _ & _ & _ & ->). cbn [snd]. split.
  - apply nth_In. pose proof (Z.mod_pos_bound year 8).
    change (List.length colors) with 8%nat. lia.
  - replace ((year + 8) mod 8) with (year mod 8); [reflexivity|].
    rewrite <- (Z.mul_1_l 8) at 2. symmetry. apply Z.mod_add. lia.
Qed.

Lemma values_colour_in_palette_witness :
  values (-1) 7 = ret ("0007", "ASN-10007", "000", "#ff0090") /\
  values (-1 + 8) 7 = ret ("0007", "ASN070007", "000", "#ff0090") /\
  In "#ff0090" colors /\ "#ff0090" = "#ff0090".
Proof.
  assert (H : values (-1) 7 = ret ("0007", "ASN-10007", "000", "#ff0090"))
    by reflexivity.
  assert (H' : values (-1 + 8) 7 = ret ("0007", "ASN070007", "000", "#ff0090"))
    by reflexivity.
  split; [exact H|]. split; [exact H'|].
  exact (values_colour_in_palette (-1) 7 _ _ H H').
Defined.

(** The code can be read back: it is "ASN", then a text that [int] reads as
    the year, then idPadded, which [int] reads as the serial. *)
Theorem values_code_reads_back year sn id4 asn zero4 fg :
  values year sn = ret (id4, asn, zero4, fg) ->
  exists yy, asn = "ASN" ++ yy ++ id4 /\
             Py.int_text yy = Some year /\ Py.int_text id4 = Some sn.
Proof.
  intros H. apply values_ret in H as (_ & -> & -> & _).
  exists (Py.format_0d 2 year). repeat split; apply int_text_format_0d.
Qed.

Lemma values_code_reads_back_witness :
  values 23 42 = ret ("0042", "ASN230042", "00", "#ff0090") /\
  exists yy, "ASN230042" = "ASN" ++ yy ++ "0042" /\
             Py.int_text yy = Some 23 /\ Py.int_text "0042" = Some 42.
Proof.
  assert (H : values 23 42 = ret ("0042", "ASN230042", "00", "#ff0090"))
    by reflexivity.
  split; [exact H|]. exact (values_code_reads_back 23 42 _ _ _ _ H).
Defined.

(** For a serial from 1 on, the filler zeros followed by the serial as the
    label prints it are idPadded; at serial 0 they are one zero too many. *)
Theorem values_filler_completes_serial year sn id4 asn zero4 fg :
  values year sn = ret (id4, asn, zero4, fg) ->
  zero4 ++ Py.str sn = if sn =? 0 then "0" ++ id4 else id4.
Proof.
  intros H. apply values_ret in H as (Hsn & -> & _ & -> & _).
  destruct (sn =? 0) eqn:Z0.
  - apply Z.eqb_eq in Z0. subst sn. reflexivity.
  - apply Z.eqb_neq in Z0.
    rewrite (format_0d_nonneg 4 sn Hsn). unfold Py.str.
    destruct (sn <? 0) eqn:S; [apply Z.ltb_lt in S; lia|].
    rewrite <- (decimal_length_ceil_log10 sn ltac:(lia)).
    do 2 f_equal. lia.
Qed.

Lemma values_filler_completes_serial_witness :
  values 23 42 = ret ("0042", "ASN230042", "00", "#ff0090") /\
  "00" ++ Py.str 42 = if 42 =? 0 then "0" ++ "0042" else "0042".
Proof.
  assert (H : values 23 42 = ret ("0042", "ASN230042", "00", "#ff0090"))
    by reflexivity.
  split; [exact H|]. exact (values_filler_completes_serial 23 42 _ _ _ _ H).
Defined.

(** idPadded has four characters exactly for the serials below 10000; from
    10000 on it is the serial as it stands, five characters or more. *)
Theorem values_id4_width year sn id4 asn zero4 fg :
  values year sn = ret (id4, asn, zero4, fg) ->
  (String.length id4 = 4%nat <-> sn < 10000) /\
  (10000 <= sn -> id4 = Py.str sn) /\
  (4 <= String.length id4)%nat.
Proof.
  intros H. apply values_ret in H as (Hsn & -> & _).
  pose proof (format_0d_length 4 sn Hsn) as L.
  pose proof (decimal_length_le sn 4 Hsn ltac:(lia)) as D.
  change (10 ^ Z.of_nat 4) with 10000 in D.
  split; [|split].
  - rewrite L. split; intros E; [apply D|apply D in E]; lia.
  - intros Hbig. rewrite (format_0d_nonneg 4 sn Hsn). unfold Py.str.
    destruct (sn <? 0) eqn:S; [apply Z.ltb_lt in S; lia|].
    replace (4 - String.length (Py.decimal sn))%nat with O; [reflexivity|].
    destruct (Nat.le_gt_cases (String.length (Py.decimal sn)) 4) as [Le|]; [|lia].
    apply D in Le. lia.
  - rewrite L. lia.
Qed.

Lemma values_id4_width_witness :
  values 1 12345 = ret ("12345", "ASN0112345", "", "#cec323") /\
  (String.length "12345" = 4%nat <-> 12345 < 10000) /\
  (10000 <= 12345 -> "12345" = Py.str 12345) /\
  (4 <= String.length "12345")%nat.
Proof.
  assert (H : values 1 12345 = ret ("12345", "ASN0112345", "", "#cec323"))
    by reflexivity.
  split; [exact H|]. exact (values_id4_width 1 12345 _ _ _ _ H).
Defined.

(** Two labels of years 0..99 never share a code: the code determines the
    year and the serial. *)
Theorem values_code_unique year sn year' sn' id4 id4' asn zero4 zero4' fg fg' :
  0 <= year < 100 -> 0 <= year' < 100 ->
  values year sn = ret (id4, asn, zero4, fg) ->
  values year' sn' = ret (id4', asn, zero4', fg') ->
  year = year' /\ sn = sn'.
Proof.
  intros Hy Hy' H H'.
  apply values_ret in H as (_ & -> & Ea & _).
  apply values_ret in H' as (_ & -> & Ea' & _).
  rewrite Ea in Ea'. injection Ea' as E.
  assert (L : forall y, 0 <= y < 100 -> String.length (Py.format_0d 2 y) = 2%nat).
  { intros y Hyy. rewrite format_0d_length by lia.
    pose proof (proj2 (decimal_length_le y 2 ltac:(lia) ltac:(lia))) as D.
    change (10 ^ Z.of_nat 2) with 100 in D. specialize (D ltac:(lia)). lia. }
  apply append_inj_length in E as [Ey Es]; [|now rewrite !L].
  split.
  - apply (f_equal Py.int_text) in Ey. rewrite !int_text_format_0d in Ey. congruence.
  - apply (f_equal Py.int_text) in Es. rewrite !int_text_format_0d in Es. congruence.
Qed.

Lemma values_code_unique_witness :
  0 <= 23 < 100 /\ 0 <= 23 < 100 /\
  values 23 42 = ret ("0042", "ASN230042", "00", "#ff0090") /\
  23 = 23 /\ 42 = 42.
Proof.
  assert (Hy : 0 <= 23 < 100) by lia.
  assert (H : values 23 42 = ret ("0042", "ASN230042", "00", "#ff0090"))
    by reflexivity.
  split; [exact Hy|]. split; [exact Hy|]. split; [exact H|].
  exact (values_code_unique 23 42 23 42 _ _ _ _ _ _ _ Hy Hy H H).
Defined.

(** From year 100 on the code no longer tells year and serial apart. *)
Example values_code_collision :
  values 123 4567 = ret ("4567", "ASN1234567", "", "#b53834") /\
  values 12 34567 = ret ("34567", "ASN1234567", "", "#4fce46").
Proof. split; reflexivity. Qed.

(** ** [parse_cfg]: the explicit form, and when the diagnostic is printed *)

Lemma malformed_iff cfg :
  malformed cfg = true <-> List.length (Py.split ":" cfg) <> 3%nat.
Proof.
  unfold malformed. rewrite split_length, negb_true_iff, Nat.eqb_neq. lia.
Qed.

Lemma split_three cfg :
  malformed cfg = false -> exists p0 p1 p2, Py.split ":" cfg = [p0; p1; p2].
Proof.
  intros H.
  assert (L : List.length (Py.split ":" cfg) = 3%nat).
  { destruct (Nat.eq_dec (List.length (Py.split ":" cfg)) 3) as [|N]; [assumption|].
    apply malformed_iff in N. congruence. }
  destruct (Py.split ":" cfg) as [|p0 [|p1 [|p2 [|p3 ps]]]]; try discriminate L.
  now exists p0, p1, p2.
Qed.

Lemma int_prints_nothing s : stdout (Py.int s) = [].
Proof. unfold Py.int. now destruct (Py.int_text s). Qed.

Lemma bind_silent {A B} (m : io A) (k : A -> io B) :
  stdout m = [] -> (forall a, stdout (k a) = []) -> stdout (bind m k) = [].
Proof.
  destruct m as [out [a|e]]; simpl; intros -> Hk; [|reflexivity].
  specialize (Hk a). destruct (k a) as [out' r]. exact Hk.
Qed.

Lemma parse_cfg_prints cfg :
  stdout (parse_cfg cfg) = if malformed cfg then [diagnostic cfg] else [].
Proof.
  destruct (malformed cfg) eqn:M.
  - apply malformed_iff in M. now rewrite (parse_cfg_malformed _ M).
  - destruct (split_three _ M) as (p0 & p1 & p2 & S).
    rewrite (parse_cfg_fields _ _ _ _ S).
    apply bind_silent; [destruct (Py.truthy p0); [apply int_prints_nothing|reflexivity]|].
    intros year.
    apply bind_silent; [destruct (Py.truthy p1); [apply int_prints_nothing|reflexivity]|].
    intros first. apply bind_silent; [|reflexivity].
    destruct (negb (Py.truthy p2)); [reflexivity|].
    destruct (Py.startswith p2 "x"); [|apply int_prints_nothing].
    apply bind_silent; [apply int_prints_nothing|reflexivity].
Qed.

(** For an input year:first:last whose last field is an integer text (not
    empty, not starting with 'x'), the parser returns that integer as it is,
    with year 0 and first 1 for the fields left empty, and the spec expands
    to the labels first .. last of that year. *)
Theorem parse_cfg_explicit_range ys fs ls year first last :
  denotes 0 ys year -> denotes 1 fs first ->
  ls <> "" -> Py.startswith ls "x" = false -> Py.int_text ls = Some last ->
  parse_cfg (ys ++ ":" ++ fs ++ ":" ++ ls) = ret (year, first, last) /\
  collect [ys ++ ":" ++ fs ++ ":" ++ ls] [] = ret (items year first last).
Proof.
  intros Hy Hf Hne Hx Hl.
  pose proof (parse_cfg_explicit_last _ _ _ _ _ _ Hy Hf Hne Hx Hl) as P.
  split; [exact P|]. now rewrite (collect_single _ _ P).
Qed.

(** ":3:5" is year 0, serials 3 to 5. *)
Lemma parse_cfg_explicit_range_witness :
  denotes 0 "" 0 /\ denotes 1 "3" 3 /\ "5" <> "" /\
  Py.startswith "5" "x" = false /\ Py.int_text "5" = Some 5 /\
  parse_cfg ":3:5" = ret (0, 3, 5) /\
  collect [":3:5"] [] = ret [(0, 3); (0, 4); (0, 5)].
Proof.
  assert (Hy : denotes 0 "" 0) by field_given.
  assert (Hf : denotes 1 "3" 3) by field_given.
  assert (Hne : "5" <> "") by discriminate.
  assert (Hx : Py.startswith "5" "x" = false) by reflexivity.
  assert (Hl : Py.int_text "5" = Some 5) by reflexivity.
  split; [exact Hy|]. split; [exact Hf|]. split; [exact Hne|].
  split; [exact Hx|]. split; [exact Hl|].
  exact (parse_cfg_explicit_range "" "3" "5" 0 3 5 Hy Hf Hne Hx Hl).
Defined.

(** The parser prints exactly when the spec does not hold two colons: then
    one line, the diagnostic with the spec in it, and the range (0, 0, 0) is
    returned; a spec with two colons prints nothing, whether it parses or
    raises. *)
Theorem parse_cfg_diagnostic_iff_not_two_colons cfg :
  (Py.count ":" cfg <> 2%nat /\
   parse_cfg cfg = (["Error: invalid config: " ++ cfg], Return (0, 0, 0))) \/
  (Py.count ":" cfg = 2%nat /\ stdout (parse_cfg cfg) = []).
Proof.
  pose proof (parse_cfg_prints cfg) as P. unfold malformed in *.
  destruct (Py.count ":" cfg =? 2)%nat eqn:E; [right|left].
  - apply Nat.eqb_eq in E. now split.
  - apply Nat.eqb_neq in E. split; [exact E|].
    apply parse_cfg_malformed. rewrite split_length. lia.
Qed.

(** ** The labels of a range *)

(** The labels of a resolved range, position by position: the i-th one is
    the serial first + i of the range's year, and there are last - first + 1
    of them (none when that is not positive). *)
Theorem labels_by_position year first last i :
  nth_error (labels (year, first, last)) i =
    if Z.of_nat i <? last - first + 1 then Some (year, first + Z.of_nat i)
    else None.
Proof.
  rewrite labels_items. unfold items. rewrite nth_error_map.
  destruct (Z.of_nat i <? last - first + 1) eqn:B.
  - apply Z.ltb_lt in B.
    rewrite (nth_error_nth' _ 0) by (rewrite range_length; lia).
    rewrite range_nth by lia. reflexivity.
  - apply Z.ltb_ge in B.
    replace (nth_error (Py.range first (last + 1)) i) with (@None Z); [reflexivity|].
    symmetry. apply nth_error_None. rewrite range_length. lia.
Qed.

(** ** The loop of [main]: order, accumulation, first failure *)

Lemma bind_assoc {A B C} (m : io A) (f : A -> io B) (g : B -> io C) :
  bind (bind m f) g = bind m (fun a => bind (f a) g).
Proof.
  destruct m as [out [a|e]]; simpl; [|reflexivity].
  destruct (f a) as [out1 [b|e]]; simpl; [|reflexivity].
  destruct (g b) as [out2 r]. now rewrite app_assoc.
Qed.

Lemma collect_app a : forall b data,
  collect (a ++ b) data = bind (collect a data) (collect b).
Proof.
  induction a as [|cfg a IH]; intros b data; cbn [app collect].
  - now rewrite bind_ret.
  - rewrite bind_assoc.
    destruct (parse_cfg cfg) as [out [r|e]]; [|reflexivity].
    rewrite !bind_Return. cbv beta. now rewrite IH.
Qed.

(** The loop from some [data] is the loop from the empty list, with [data]
    in front of what it collects. *)
Lemma collect_from cfgs : forall data,
  collect cfgs data =
    (stdout (collect cfgs []),
     match result (collect cfgs []) with
     | Return d => Return (data ++ d)%list
     | Raise e => Raise e
     end).
Proof.
  induction cfgs as [|cfg cfgs IH]; intros data; cbn [collect].
  - unfold ret. simpl. now rewrite app_nil_r.
  - destruct (parse_cfg cfg) as [out [r|e]]; [|reflexivity].
    rewrite !bind_Return. cbv beta.
    rewrite (IH (data ++ labels r)%list), (IH ([] ++ labels r)%list).
    cbn [stdout fst snd app].
    destruct (result (collect cfgs [])) as [d|e]; [|reflexivity].
    unfold result. cbn [snd]. now rewrite app_assoc.
Qed.

(** The labels of a command line are the labels of its specs in the order
    given: when two runs of specs both go through, the run of one after the
    other prints the lines of the first then those of the second and collects
    the labels of the first followed by those of the second. *)
Theorem collect_concatenates a b out1 d1 out2 d2 :
  collect a [] = (out1, Return d1) -> collect b [] = (out2, Return d2) ->
  collect (a ++ b) [] = ((out1 ++ out2)%list, Return (d1 ++ d2)%list).
Proof.
  intros Ha Hb. rewrite collect_app, Ha, bind_Return, (collect_from b d1), Hb.
  reflexivity.
Qed.

Lemma collect_concatenates_witness :
  collect ["a:b"; "7:1:2"] [] = ([diagnostic "a:b"], Return [(0, 0); (7, 1); (7, 2)]) /\
  collect ["8:5:x1"] [] = ([], Return (items 8 5 20)) /\
  collect (["a:b"; "7:1:2"] ++ ["8:5:x1"]) []
    = (([diagnostic "a:b"] ++ [])%list,
       Return ([(0, 0); (7, 1); (7, 2)] ++ items 8 5 20)%list).
Proof.
  assert (Ha : collect ["a:b"; "7:1:2"] []
               = ([diagnostic "a:b"], Return [(0, 0); (7, 1); (7, 2)]))
    by reflexivity.
  assert (Hb : collect ["8:5:x1"] [] = ([], Return (items 8 5 20))) by reflexivity.
  split; [exact Ha|]. split; [exact Hb|].
  exact (collect_concatenates _ _ _ _ _ _ Ha Hb).
Defined.

(** A spec that raises ends the loop there: the specs after it are neither
    parsed nor reported, and no label list comes back. *)
Theorem collect_stops_at_first_failure a b out e :
  collect a [] = (out, Raise e) -> collect (a ++ b) [] = (out, Raise e).
Proof. intros Ha. now rewrite collect_app, Ha. Qed.

Lemma collect_stops_at_first_failure_witness :
  collect ["a:b"; "x:1:2"] [] = ([diagnostic "a:b"], Raise ValueError) /\
  collect (["a:b"; "x:1:2"] ++ ["c:d"; "1:1:1"]) []
    = ([diagnostic "a:b"], Raise ValueError).
Proof.
  assert (Ha : collect ["a:b"; "x:1:2"] [] = ([diagnostic "a:b"], Raise ValueError))
    by reflexivity.
  split; [exact Ha|].
  exact (collect_stops_at_first_failure _ ["c:d"; "1:1:1"] _ _ Ha).
Defined.

(** When the loop goes through, it has printed one diagnostic for each spec
    that does not hold two colons, in the order of the command line, and
    nothing else. *)
Theorem collect_prints_one_diagnostic_per_malformed_spec cfgs out data :
  collect cfgs [] = (out, Return data) ->
  out = map diagnostic (filter malformed cfgs).
Proof.
  revert out data. induction cfgs as [|cfg cfgs IH]; intros out data H.
  - injection H as <- _. reflexivity.
  - cbn [collect] in H.
    pose proof (parse_cfg_prints cfg) as P.
    destruct (parse_cfg cfg) as [o [r|e]]; [|discriminate H].
    rewrite bind_Return in H. cbv beta in H.
    rewrite (collect_from cfgs) in H. cbn [stdout result fst snd] in H.
    destruct (collect cfgs []) as [o' [d'|e']] eqn:C; [|discriminate H].
    cbn [fst snd] in H. injection H as <- _.
    rewrite (IH o' d' eq_refl). cbn [stdout fst] in P. rewrite P.
    cbn [filter]. destruct (malformed cfg); reflexivity.
Qed.

Lemma collect_prints_one_diagnostic_per_malformed_spec_witness :
  collect ["a:b"; "7:1:2"; "1:2:3:4"] []
    = ([diagnostic "a:b"; diagnostic "1:2:3:4"],
       Return [(0, 0); (7, 1); (7, 2); (0, 0)]) /\
  [diagnostic "a:b"; diagnostic "1:2:3:4"]
    = map diagnostic (filter malformed ["a:b"; "7:1:2"; "1:2:3:4"]).
Proof.
  assert (H : collect ["a:b"; "7:1:2"; "1:2:3:4"] []
              = ([diagnostic "a:b"; diagnostic "1:2:3:4"],
                 Return [(0, 0); (7, 1); (7, 2); (0, 0)])) by reflexivity.
  split; [exact H|].
  exact (collect_prints_one_diagnostic_per_malformed_spec _ _ _ H).
Defined.

(** ** The output name *)

Lemma endswith_app s suf : Py.endswith (s ++ suf) suf = true.
Proof. apply endswith_iff. now exists s. Qed.

(** The name of the file that is opened always ends in ".pdf", and naming
    that file as the output gives the same file again. *)
Theorem output_pdf_ends_in_pdf output :
  Py.endswith (output_pdf output) ".pdf" = true /\
  output_pdf (output_pdf output) = output_pdf output.
Proof.
  assert (E : Py.endswith (output_pdf output) ".pdf" = true).
  { unfold output_pdf. destruct (Py.endswith output ".pdf") eqn:E; simpl.
    - exact E.
    - apply endswith_app. }
  split; [exact E|].
  unfold output_pdf at 1. now rewrite E.
Qed.

(** ** [_split]: cutting a list into chunks *)

Lemma range3_up stop step :
  0 < step ->
  Py.range3 0 stop step
    = map (fun k => Z.of_nat k * step) (seq 0 (Z.to_nat ((stop + step - 1) / step))).
Proof.
  intros Hs. unfold Py.range3.
  destruct (0 <? step) eqn:T; [|apply Z.ltb_ge in T; lia].
  rewrite Z.sub_0_r. reflexivity.
Qed.

Lemma range3_down stop step : 0 <= stop -> step < 0 -> Py.range3 0 stop step = [].
Proof.
  intros Hstop Hs. unfold Py.range3.
  destruct (0 <? step) eqn:T; [apply Z.ltb_lt in T; lia|].
  replace (Z.to_nat ((0 - stop - step - 1) / - step)) with O; [reflexivity|].
  assert ((0 - stop - step - 1) / - step <= 0); [|lia].
  assert ((0 - stop - step - 1) / - step < 1); [|lia].
  apply Z.div_lt_upper_bound; lia.
Qed.

Lemma chunk_count (L n : nat) :
  (0 < n)%nat ->
  Z.to_nat ((Z.of_nat L + Z.of_nat n - 1) / Z.of_nat n) = ((L + n - 1) / n)%nat.
Proof.
  intros Hn. rewrite <- (Nat2Z.id ((L + n - 1) / n)). f_equal.
  rewrite Nat2Z.inj_div. f_equal. lia.
Qed.

Lemma _split_chunks {A} (l : list A) chunk_size :
  0 < chunk_size -> _split l chunk_size = pret (chunks (Z.to_nat chunk_size) l).
Proof.
  intros Hc. unfold _split, chunks.
  destruct (chunk_size =? 0) eqn:Z0; [apply Z.eqb_eq in Z0; lia|].
  rewrite (range3_up _ _ Hc), map_map. unfold Py.len.
  remember (Z.to_nat chunk_size) as n eqn:En.
  assert (E : chunk_size = Z.of_nat n) by lia. rewrite E.
  rewrite chunk_count by lia. f_equal.
  apply map_ext. intros k. unfold Py.slice. f_equal; [lia|].
  f_equal. lia.
Qed.

(** How many chunks: the length divided by [n], rounded up. *)
Lemma chunks_length {A} n (l : list A) :
  List.length (chunks n l) = ((List.length l + n - 1) / n)%nat.
Proof. unfold chunks. now rewrite length_map, length_seq. Qed.

Lemma ceil_div_bounds (L n k : nat) :
  (0 < n)%nat -> (k < (L + n - 1) / n <-> k * n < L)%nat.
Proof.
  intros Hn.
  pose proof (Nat.div_mod_eq (L + n - 1) n) as E.
  pose proof (Nat.mod_upper_bound (L + n - 1) n ltac:(lia)) as B.
  set (q := ((L + n - 1) / n)%nat) in *. set (m := ((L + n - 1) mod n)%nat) in *.
  split; intros H; nia.
Qed.

Lemma chunks_nth_error {A} n (l : list A) k :
  (0 < n)%nat ->
  nth_error (chunks n l) k =
    if (k * n <? List.length l)%nat then Some (firstn n (skipn (k * n) l)) else None.
Proof.
  intros Hn. unfold chunks.
  rewrite nth_error_map, nth_error_seq.
  pose proof (ceil_div_bounds (List.length l) n k Hn) as B.
  destruct (k <? (List.length l + n - 1) / n)%nat eqn:T;
    destruct (k * n <? List.length l)%nat eqn:T'; try reflexivity;
    [apply Nat.ltb_lt in T; apply Nat.ltb_ge in T'|
     apply Nat.ltb_ge in T; apply Nat.ltb_lt in T']; lia.
Qed.

(** Looking into the k-th chunk at place r is looking into the list at place
    k * n + r. *)
Lemma chunks_lookup {A} n (l : list A) k r :
  (r < n)%nat ->
  match nth_error (chunks n l) k with
  | Some ch => nth_error ch r
  | None => None
  end = nth_error l (k * n + r).
Proof.
  intros Hr. rewrite chunks_nth_error by lia.
  destruct (k * n <? List.length l)%nat eqn:T.
  - rewrite nth_error_firstn.
    destruct (r <? n)%nat eqn:R; [|apply Nat.ltb_ge in R; lia].
    apply nth_error_skipn.
  - apply Nat.ltb_ge in T. symmetry. apply nth_error_None. lia.
Qed.

Lemma firstn_plus {A} (a b : nat) : forall l : list A,
  firstn (a + b) l = (firstn a l ++ firstn b (skipn a l))%list.
Proof.
  induction a as [|a IH]; intros [|x l]; simpl; try reflexivity.
  - now destruct b.
  - now rewrite IH.
Qed.

Lemma chunks_concat_from {A} n (l : list A) : forall m k,
  List.concat (map (fun k => firstn n (skipn (k * n) l)) (seq k m))
    = firstn (m * n) (skipn (k * n) l).
Proof.
  induction m as [|m IH]; intros k; [reflexivity|].
  cbn [seq map List.concat]. rewrite (IH (S k)).
  replace (S m * n)%nat with (n + m * n)%nat by lia.
  rewrite firstn_plus, skipn_skipn. do 3 f_equal; lia.
Qed.

(** For a positive chunk size, [_split] loses nothing and keeps the order:
    the chunks put end to end are the list; there are len / size of them,
    rounded up; the k-th one holds [size] elements, or what is left of the
    list after k * size, and is never empty. *)
Theorem _split_covers_the_list {A} (l : list A) chunk_size :
  0 < chunk_size ->
  exists chunked,
    _split l chunk_size = ([], inl chunked) /\
    List.concat chunked = l /\
    Py.len chunked = (Py.len l + chunk_size - 1) / chunk_size /\
    forall k ch, nth_error chunked k = Some ch ->
      Py.len ch = Z.min chunk_size (Py.len l - Z.of_nat k * chunk_size) /\
      0 < Py.len ch.
Proof.
  intros Hc. exists (chunks (Z.to_nat chunk_size) l).
  remember (Z.to_nat chunk_size) as n eqn:En.
  assert (E : chunk_size = Z.of_nat n) by lia.
  assert (Hn : (0 < n)%nat) by lia.
  split; [rewrite (_split_chunks l chunk_size Hc), <- En; reflexivity|].
  split; [|split].
  - unfold chunks. rewrite chunks_concat_from. cbn [skipn Nat.mul].
    apply firstn_all2.
    pose proof (ceil_div_bounds (List.length l) n ((List.length l + n - 1) / n) Hn).
    lia.
  - unfold Py.len. rewrite chunks_length, Nat2Z.inj_div, E. f_equal. lia.
  - intros k ch H. rewrite chunks_nth_error in H by exact Hn.
    destruct (k * n <? List.length l)%nat eqn:T; [|discriminate H].
    apply Nat.ltb_lt in T. injection H as <-.
    unfold Py.len. rewrite length_firstn, length_skipn. lia.
Qed.

Lemma _split_covers_the_list_witness :
  0 < 2 /\
  exists chunked,
    _split [1; 2; 3; 4; 5] 2 = ([], inl chunked) /\
    List.concat chunked = [1; 2; 3; 4; 5] /\
    Py.len chunked = (Py.len [1; 2; 3; 4; 5] + 2 - 1) / 2 /\
    forall k ch, nth_error chunked k = Some ch ->
      Py.len ch = Z.min 2 (Py.len [1; 2; 3; 4; 5] - Z.of_nat k * 2) /\
      0 < Py.len ch.
Proof.
  assert (H : 0 < 2) by lia.
  split; [exact H|]. exact (_split_covers_the_list [1; 2; 3; 4; 5] 2 H).
Defined.

(** A chunk size of 0 makes [_split] raise ValueError (a range with step 0);
    a negative one gives no chunk at all, whatever the list. *)
Theorem _split_without_positive_size {A} (l : list A) chunk_size :
  chunk_size <= 0 ->
  _split l chunk_size
    = if chunk_size =? 0 then ([], inr (Exn ValueError)) else ([], inl []).
Proof.
  intros Hc. unfold _split. destruct (chunk_size =? 0) eqn:Z0; [reflexivity|].
  apply Z.eqb_neq in Z0.
  rewrite range3_down; [reflexivity|unfold Py.len; lia|lia].
Qed.

Lemma _split_without_positive_size_witness :
  -3 <= 0 /\
  _split [1; 2; 3; 4; 5] (-3)
    = if -3 =? 0 then ([], inr (Exn ValueError)) else ([], inl []).
Proof.
  assert (H : -3 <= 0) by lia.
  split; [exact H|]. exact (_split_without_positive_size [1; 2; 3; 4; 5] (-3) H).
Defined.

(** ** The loops of [print_csv] *)

Lemma pbind_pret {A B} (a : A) (k : A -> prog B) : pbind (pret a) k = k a.
Proof. unfold pbind, pret. now destruct (k a). Qed.

Lemma pbind_inl {A B} out (a : A) (k : A -> prog B) :
  pbind (out, inl a) k = ((out ++ fst (k a))%list, snd (k a)).
Proof. unfold pbind. now destruct (k a). Qed.

(** A loop whose every round goes through prints the rounds' lines in
    order. *)
Lemma for_each_ok {A} (l : list A) (body : A -> prog unit) (lines : A -> list string) :
  (forall x, In x l -> body x = (lines x, inl tt)) ->
  for_each l body = (flat_map lines l, inl tt).
Proof.
  induction l as [|x l IH]; intros H; [reflexivity|].
  cbn [for_each flat_map]. rewrite (H x (or_introl eq_refl)), pbind_inl.
  rewrite IH by (intros y Hy; apply H; now right). reflexivity.
Qed.

(** A loop with a round that fails ends in an exception: that round's, or
    the exception of an earlier round. *)
Lemma for_each_fails {A} (P : error -> Prop) (l : list A) (body : A -> prog unit) x0 :
  In x0 l ->
  (exists out e, body x0 = (out, inr e)) ->
  (forall x out e, In x l -> body x = (out, inr e) -> P e) ->
  exists out e, for_each l body = (out, inr e) /\ P e.
Proof.
  induction l as [|x l IH]; intros Hin Hfail HP; [contradiction|].
  cbn [for_each]. destruct (body x) as [o [[]|e]] eqn:B.
  - destruct Hin as [->|Hin].
    { destruct Hfail as (o' & e' & F). rewrite F in B. discriminate B. }
    destruct (IH Hin Hfail) as (out & e & F & Pe).
    { intros y o' e' Hy. apply HP. now right. }
    exists (o ++ out)%list, e. rewrite pbind_inl, F. now split.
  - exists o, e. split; [reflexivity|]. exact (HP x o e (or_introl eq_refl) B).
Qed.

Lemma range_from_0 n : 0 <= n -> Py.range 0 n = map Z.of_nat (seq 0 (Z.to_nat n)).
Proof. intros Hn. unfold Py.range. rewrite Z.sub_0_r. reflexivity. Qed.

Lemma index_nat {A} (l : list A) (i : nat) :
  index l (Z.of_nat i) =
    match nth_error l i with
    | Some x => pret x
    | None => praise IndexError
    end.
Proof.
  unfold index.
  destruct (Z.of_nat i <? 0) eqn:T; [apply Z.ltb_lt in T; lia|].
  rewrite T, Nat2Z.id. reflexivity.
Qed.

(** One round of the innermost loop: the cell of column [c] and row [r]. *)
Lemma cell_round (page : list (list (Z * Z))) (r c : nat) :
  (column <-- index page (Z.of_nat c) ;;
   cell <-- index column (Z.of_nat r) ;;
   v <-- lift (values (fst cell) (snd cell)) ;;
   pprint (csv_line (fst cell) (snd cell) v))
  = match match nth_error page c with
          | Some column => nth_error column r
          | None => None
          end with
    | None => ([], inr IndexError)
    | Some cell =>
        if snd cell <? 0 then ([], inr (Exn ValueError))
        else ([csv_row cell], inl tt)
    end.
Proof.
  rewrite index_nat. destruct (nth_error page c) as [column|]; [|reflexivity].
  rewrite pbind_pret, index_nat.
  destruct (nth_error column r) as [cell|]; [|reflexivity].
  rewrite pbind_pret. unfold csv_row. rewrite values_cases.
  destruct (snd cell <? 0); reflexivity.
Qed.

Lemma cell_round_page page r c :
  (column <-- index page (Z.of_nat c) ;;
   cell <-- index column (Z.of_nat r) ;;
   v <-- lift (values (fst cell) (snd cell)) ;;
   pprint (csv_line (fst cell) (snd cell) v))
  = match page_cell page r c with
    | None => ([], inr IndexError)
    | Some cell =>
        if snd cell <? 0 then ([], inr (Exn ValueError))
        else ([csv_row cell], inl tt)
    end.
Proof. apply cell_round. Qed.

Lemma for_each_map {A B} (f : A -> B) (l : list A) (body : B -> prog unit) :
  for_each (map f l) body = for_each l (fun x => body (f x)).
Proof. induction l as [|x l IH]; [reflexivity|]. cbn [map for_each]. now rewrite IH. Qed.

(** The rounds of a page, over the rows 0..15 and the columns 0..4. *)
Lemma page_rounds_nat page :
  page_rounds page =
    for_each (seq 0 16) (fun r =>
      for_each (seq 0 5) (fun c =>
        match page_cell page r c with
        | None => ([], inr IndexError)
        | Some cell =>
            if snd cell <? 0 then ([], inr (Exn ValueError))
            else ([csv_row cell], inl tt)
        end)).
Proof.
  unfold page_rounds.
  change (Py.range 0 ROWS) with (map Z.of_nat (seq 0 16)).
  change (Py.range 0 COLS) with (map Z.of_nat (seq 0 5)).
  rewrite for_each_map.
  assert (E : forall l (f g : nat -> prog unit),
             (forall x, f x = g x) -> for_each l f = for_each l g).
  { intros l f g H. induction l as [|x l IH]; [reflexivity|].
    cbn [for_each]. now rewrite H, IH. }
  apply E. intros r. rewrite for_each_map. apply E. intros c.
  apply cell_round_page.
Qed.

Lemma print_csv_pages data :
  print_csv data =
    let pages := chunks 5 (chunks 16 data) in
    ("ID,Year,ID4,CODE,Zero4,fg" :: fst (for_each pages page_rounds),
     snd (for_each pages page_rounds)).
Proof.
  unfold print_csv.
  rewrite (_split_chunks data ROWS) by reflexivity. rewrite pbind_pret.
  rewrite (_split_chunks _ COLS) by reflexivity. rewrite pbind_pret.
  unfold pprint. rewrite pbind_inl. reflexivity.
Qed.

(** The cell of row [r] and column [c] of the p-th page is the label at place
    80 p + 16 c + r of [data]. *)
Lemma page_cell_data data p page r c :
  nth_error (chunks 5 (chunks 16 data)) p = Some page ->
  (r < 16)%nat -> (c < 5)%nat ->
  page_cell page r c = nth_error data (80 * p + 16 * c + r).
Proof.
  intros Hp Hr Hc. unfold page_cell.
  pose proof (chunks_lookup 5 (chunks 16 data) p c Hc) as H1.
  rewrite Hp in H1. rewrite H1.
  rewrite (chunks_lookup 16 data (p * 5 + c) r Hr). f_equal. lia.
Qed.

(** The p-th page is there exactly when [data] goes beyond 80 p labels. *)
Lemma page_exists (data : list (Z * Z)) p :
  (exists page, nth_error (chunks 5 (chunks 16 data)) p = Some page)
  <-> (80 * p < List.length data)%nat.
Proof.
  rewrite chunks_nth_error by lia.
  rewrite (chunks_length 16 data).
  pose proof (ceil_div_bounds (List.length data) 16 (p * 5) ltac:(lia)) as B.
  destruct (p * 5 <? (List.length data + 16 - 1) / 16)%nat eqn:T.
  - apply Nat.ltb_lt in T. split; [lia|]. intros _. eexists. reflexivity.
  - apply Nat.ltb_ge in T. split; [intros [page H]; discriminate H|lia].
Qed.

Lemma for_each_error_origin {A} (l : list A) (body : A -> prog unit) out e :
  for_each l body = (out, inr e) ->
  exists x o, In x l /\ body x = (o, inr e).
Proof.
  revert out. induction l as [|x l IH]; intros out H; [discriminate H|].
  cbn [for_each] in H. destruct (body x) as [o [[]|e']] eqn:B.
  - rewrite pbind_inl in H. injection H as _ H.
    destruct (for_each l body) as [o' r'] eqn:F. cbn [snd] in H. subst r'.
    destruct (IH o' eq_refl) as (y & oy & Hy & By).
    exists y, oy. split; [now right|exact By].
  - injection H as _ <-. exists x, o. split; [now left|exact B].
Qed.

(** Whatever makes the rounds of a page of [data] fail: a missing cell, or a
    negative serial that is in [data]. *)
Lemma page_rounds_error data p page out e :
  nth_error (chunks 5 (chunks 16 data)) p = Some page ->
  page_rounds page = (out, inr e) ->
  e = IndexError \/ (e = Exn ValueError /\ exists cell, In cell data /\ snd cell < 0).
Proof.
  intros Hp H. rewrite page_rounds_nat in H.
  apply for_each_error_origin in H as (r & o & Hr & H).
  apply for_each_error_origin in H as (c & o' & Hc & H).
  apply in_seq in Hr. apply in_seq in Hc.
  rewrite (page_cell_data data p page r c Hp) in H by lia.
  destruct (nth_error data (80 * p + 16 * c + r)) as [cell|] eqn:N.
  - destruct (snd cell <? 0) eqn:S; [|discriminate H].
    injection H as _ <-. right. split; [reflexivity|].
    exists cell. split; [exact (nth_error_In _ _ N)|now apply Z.ltb_lt].
  - injection H as _ <-. now left.
Qed.

(** ** [print_csv]: full pages only *)

Lemma page_of_In (data : list (Z * Z)) page :
  In page (chunks 5 (chunks 16 data)) ->
  exists p, nth_error (chunks 5 (chunks 16 data)) p = Some page /\
            (80 * p < List.length data)%nat.
Proof.
  intros H. apply In_nth_error in H as [p Hp]. exists p. split; [exact Hp|].
  apply page_exists. now exists page.
Qed.

Lemma print_csv_partial data :
  (List.length data mod 80 <> 0)%nat ->
  exists out e,
    print_csv data = ("ID,Year,ID4,CODE,Zero4,fg" :: out, inr e) /\
    (Forall (fun cell => 0 <= snd cell) data -> e = IndexError).
Proof.
  intros Hmod. rewrite print_csv_pages. cbv zeta.
  set (pages := chunks 5 (chunks 16 data)).
  set (p := (List.length data / 80)%nat).
  euclid (List.length data) 80%nat.
  destruct (proj2 (page_exists data p)) as [page Hp]; [subst p; lia|].
  assert (Hfail : exists out e, page_rounds page = (out, inr e)).
  { rewrite page_rounds_nat.
    destruct (for_each_fails (fun _ => True) (seq 0 16)
                (fun r => for_each (seq 0 5) (fun c =>
                   match page_cell page r c with
                   | None => ([], inr IndexError)
                   | Some cell =>
                       if snd cell <? 0 then ([], inr (Exn ValueError))
                       else ([csv_row cell], inl tt)
                   end)) 15%nat) as (out & e & F & _); [apply in_seq; lia| |trivial|].
    - destruct (for_each_fails (fun _ => True) (seq 0 5)
                  (fun c =>
                     match page_cell page 15 c with
                     | None => ([], inr IndexError)
                     | Some cell =>
                         if snd cell <? 0 then ([], inr (Exn ValueError))
                         else ([csv_row cell], inl tt)
                     end) 4%nat) as (out & e & F & _); [apply in_seq; lia| |trivial|].
      + rewrite (page_cell_data data p page 15 4 Hp) by lia.
        replace (nth_error data (80 * p + 16 * 4 + 15)) with (@None (Z * Z)).
        * now exists [], IndexError.
        * symmetry. apply nth_error_None. subst p. lia.
      + now exists out, e.
    - now exists out, e. }
  destruct (for_each_fails
              (fun e => e = IndexError \/
                        (e = Exn ValueError /\ exists cell, In cell data /\ snd cell < 0))
              pages page_rounds page) as (out & e & F & Pe).
  - exact (nth_error_In _ _ Hp).
  - exact Hfail.
  - intros x o e Hx Hb. destruct (page_of_In data x Hx) as (q & Hq & _).
    exact (page_rounds_error data q x o e Hq Hb).
  - exists out, e. rewrite F. split; [reflexivity|].
    intros Hall. destruct Pe as [->|(_ & cell & Hin & Hneg)]; [reflexivity|].
    rewrite Forall_forall in Hall. specialize (Hall cell Hin). lia.
Qed.

(** [print_csv] goes through only on full pages.  When the number of labels
    is not a multiple of 80, it prints the header (and the lines of the
    rounds before the first missing cell) and ends in an exception:
    IndexError, unless a negative serial made [values] raise before. *)
Theorem print_csv_needs_full_pages data :
  (List.length data mod 80 <> 0)%nat ->
  exists out e,
    print_csv data = ("ID,Year,ID4,CODE,Zero4,fg" :: out, inr e) /\
    (Forall (fun cell => 0 <= snd cell) data -> e = IndexError).
Proof. exact (print_csv_partial data). Qed.

(** One label: its line is printed, then column 1 is missing. *)
Lemma print_csv_needs_full_pages_witness :
  (List.length [(23, 7)] mod 80 <> 0)%nat /\
  print_csv [(23, 7)]
    = (["ID,Year,ID4,CODE,Zero4,fg"; "7,23,0007,ASN230007,000,#ff0090"],
       inr IndexError) /\
  exists out e,
    print_csv [(23, 7)] = ("ID,Year,ID4,CODE,Zero4,fg" :: out, inr e) /\
    (Forall (fun cell => 0 <= snd cell) [(23, 7)] -> e = IndexError).
Proof.
  assert (H : (List.length [(23, 7)] mod 80 <> 0)%nat) by discriminate.
  split; [exact H|]. split; [reflexivity|].
  exact (print_csv_needs_full_pages [(23, 7)] H).
Defined.

Lemma seq_from a n : seq a n = map (Nat.add a) (seq 0 n).
Proof.
  induction a as [|a IH]; [now rewrite map_id|].
  rewrite <- seq_shift, IH, map_map. reflexivity.
Qed.

Lemma flat_map_ext_in {A B} (f g : A -> list B) l :
  (forall x, In x l -> f x = g x) -> flat_map f l = flat_map g l.
Proof.
  induction l as [|x l IH]; intros H; [reflexivity|].
  cbn [flat_map]. rewrite (H x (or_introl eq_refl)), IH; [reflexivity|].
  intros y Hy. apply H. now right.
Qed.

Lemma flat_map_of_map {A B C} (g : A -> B) (f : B -> list C) l :
  flat_map f (map g l) = flat_map (fun x => f (g x)) l.
Proof. induction l as [|x l IH]; [reflexivity|]. cbn [map flat_map]. now rewrite IH. Qed.

Lemma flat_map_singleton {A B} (h : A -> B) l : flat_map (fun x => [h x]) l = map h l.
Proof. induction l as [|x l IH]; [reflexivity|]. cbn [map flat_map]. now rewrite IH. Qed.

(** Two nested loops over [0..m) and [0..n) are one loop over [0..m*n),
    the counter split into quotient and remainder. *)
Lemma flat_map_seq_div {B} (g : nat -> nat -> B) n m :
  (0 < n)%nat ->
  flat_map (fun a => map (g a) (seq 0 n)) (seq 0 m)
    = map (fun j => g (j / n)%nat (j mod n)%nat) (seq 0 (m * n)).
Proof.
  intros Hn. induction m as [|m IH]; [reflexivity|].
  rewrite seq_S, flat_map_app, IH. cbn [flat_map Nat.add]. rewrite app_nil_r.
  replace (S m * n)%nat with (m * n + n)%nat by lia.
  rewrite seq_app, map_app. f_equal. cbn [Nat.add].
  rewrite (seq_from (m * n) n), map_map. apply map_ext_in.
  intros b Hb. apply in_seq in Hb.
  f_equal.
  - apply (Nat.div_unique _ _ _ b); lia.
  - apply (Nat.mod_unique _ _ m); lia.
Qed.

Lemma csv_source_injective : Injective csv_source.
Proof.
  intros i j H. unfold csv_source in H.
  euclid j 80%nat. euclid j 5%nat. euclid (j mod 80)%nat 5%nat.
  euclid i 80%nat. euclid i 5%nat. euclid (i mod 80)%nat 5%nat. lia.
Qed.

Lemma csv_source_bound j k : (j < 80 * k -> csv_source j < 80 * k)%nat.
Proof.
  intros H. unfold csv_source.
  euclid j 80%nat. euclid j 5%nat. euclid (j mod 80)%nat 5%nat. lia.
Qed.

Lemma map_nth_all {A} (l : list A) d :
  map (fun i => nth i l d) (seq 0 (List.length l)) = l.
Proof.
  induction l as [|x l IH]; [reflexivity|].
  cbn [List.length seq map nth]. f_equal.
  rewrite <- seq_shift, map_map. exact IH.
Qed.

(** On full pages every place of [data] is the source of exactly one line. *)
Lemma csv_source_permutes {A} (data : list A) d :
  (List.length data mod 80 = 0)%nat ->
  Permutation (map (fun j => nth (csv_source j) data d) (seq 0 (List.length data)))
              data.
Proof.
  intros Hmod. set (L := List.length data) in *.
  assert (P : Permutation (map csv_source (seq 0 L)) (seq 0 L)).
  { apply NoDup_Permutation_bis.
    - apply Injective_map_NoDup; [exact csv_source_injective|apply seq_NoDup].
    - now rewrite length_map.
    - intros i Hi. apply in_map_iff in Hi as (j & <- & Hj).
      apply in_seq in Hj. apply in_seq.
      euclid L 80%nat.
      pose proof (csv_source_bound j (L / 80)). lia. }
  apply (Permutation_map (fun i => nth i data d)) in P.
  rewrite map_map in P. unfold L in P at 2. now rewrite map_nth_all in P.
Qed.

(** The lines of the rounds of the p-th page, on full pages. *)
Lemma page_rounds_full data p page :
  (List.length data mod 80 = 0)%nat ->
  Forall (fun cell => 0 <= snd cell) data ->
  nth_error (chunks 5 (chunks 16 data)) p = Some page ->
  page_rounds page =
    (flat_map (fun r =>
       map (fun c => csv_row (nth (80 * p + 16 * c + r) data (0, 0))) (seq 0 5))
       (seq 0 16),
     inl tt).
Proof.
  intros Hmod Hall Hp. rewrite page_rounds_nat.
  assert (Hlen : (80 * p < List.length data)%nat)
    by (apply page_exists; now exists page).
  apply for_each_ok. intros r Hr. apply in_seq in Hr.
  rewrite <- flat_map_singleton. apply for_each_ok. intros c Hc. apply in_seq in Hc.
  rewrite (page_cell_data data p page r c Hp) by lia.
  assert (Hi : (80 * p + 16 * c + r < List.length data)%nat).
  { euclid (List.length data) 80%nat. nia. }
  rewrite (nth_error_nth' data (0, 0) Hi).
  rewrite Forall_forall in Hall.
  specialize (Hall _ (nth_In data (0, 0) Hi)).
  destruct (snd (nth (80 * p + 16 * c + r) data (0, 0)) <? 0) eqn:S;
    [apply Z.ltb_lt in S; lia|reflexivity].
Qed.

Lemma print_csv_lines data :
  (List.length data mod 80 = 0)%nat ->
  Forall (fun cell => 0 <= snd cell) data ->
  print_csv data
    = ("ID,Year,ID4,CODE,Zero4,fg"
         :: map (fun j => csv_row (nth (csv_source j) data (0, 0)))
                (seq 0 (List.length data)),
       inl tt).
Proof.
  intros Hmod Hall.
  rewrite print_csv_pages. cbv zeta.
  set (h := fun p r c => csv_row (nth (80 * p + 16 * c + r) data (0, 0))).
  rewrite (for_each_ok (chunks 5 (chunks 16 data)) page_rounds
             (fun page =>
                flat_map (fun r => flat_map (fun c =>
                  match page_cell page r c with
                  | Some cell => [csv_row cell]
                  | None => []
                  end) (seq 0 5)) (seq 0 16))).
  2:{ intros page Hin. destruct (page_of_In data page Hin) as (p & Hp & Hlen).
      rewrite (page_rounds_full data p page Hmod Hall Hp). f_equal.
      apply flat_map_ext_in. intros r Hr. apply in_seq in Hr.
      rewrite <- flat_map_singleton. apply flat_map_ext_in.
      intros c Hc. apply in_seq in Hc.
      rewrite (page_cell_data data p page r c Hp) by lia.
      rewrite (nth_error_nth' data (0, 0)); [reflexivity|].
      euclid (List.length data) 80%nat. nia. }
  cbn [fst snd]. do 2 f_equal.
  assert (K : ((List.length (chunks 16 data) + 5 - 1) / 5 = List.length data / 80)%nat).
  { rewrite chunks_length.
    euclid (List.length data) 80%nat. euclid (List.length data + 16 - 1)%nat 16%nat.
    euclid ((List.length data + 16 - 1) / 16 + 5 - 1)%nat 5%nat. lia. }
  unfold chunks at 1. rewrite K, flat_map_of_map.
  rewrite (flat_map_ext_in _
             (fun p => map (fun i => h p (i / 5)%nat (i mod 5)%nat) (seq 0 (16 * 5)))).
  2:{ intros p Hp. apply in_seq in Hp.
      assert (Hpage : nth_error (chunks 5 (chunks 16 data)) p
                      = Some (firstn 5 (skipn (p * 5) (chunks 16 data)))).
      { unfold chunks at 1. rewrite K, nth_error_map, nth_error_seq.
        destruct (p <? List.length data / 80)%nat eqn:T; [reflexivity|].
        apply Nat.ltb_ge in T. lia. }
      rewrite <- (flat_map_seq_div (h p) 5 16) by lia.
      apply flat_map_ext_in. intros r Hr. apply in_seq in Hr.
      rewrite <- flat_map_singleton. apply flat_map_ext_in.
      intros c Hc. apply in_seq in Hc.
      rewrite (page_cell_data data p _ r c Hpage) by lia.
      rewrite (nth_error_nth' data (0, 0)); [reflexivity|].
      euclid (List.length data) 80%nat. nia. }
  rewrite (flat_map_seq_div (fun p i => h p (i / 5)%nat (i mod 5)%nat) (16 * 5)) by lia.
  replace (List.length data / 80 * (16 * 5))%nat with (List.length data)
    by (euclid (List.length data) 80%nat; lia).
  apply map_ext. intros j. unfold h, csv_source. do 2 f_equal.
  change (16 * 5)%nat with 80%nat.
  euclid j 80%nat. euclid j 5%nat. euclid (j mod 80)%nat 5%nat. lia.
Qed.

(** On full pages, a number of labels that is a multiple of 80 with no
    negative serial, [print_csv] goes through: it prints the header and one
    line per label, page after page and, within a page, row after row across
    its 5 columns, so that line j shows the label at place [csv_source j];
    every label of [data] gets exactly one line. *)
Theorem print_csv_full_pages data :
  (List.length data mod 80 = 0)%nat ->
  Forall (fun cell => 0 <= snd cell) data ->
  print_csv data
    = ("ID,Year,ID4,CODE,Zero4,fg"
         :: map (fun j => csv_row (nth (csv_source j) data (0, 0)))
                (seq 0 (List.length data)),
       inl tt) /\
  Permutation (map (fun j => nth (csv_source j) data (0, 0))
                   (seq 0 (List.length data)))
              data.
Proof.
  intros Hmod Hall. split.
  - exact (print_csv_lines data Hmod Hall).
  - exact (csv_source_permutes data (0, 0) Hmod).
Qed.

(** The 80 labels of "23:1:": the second line of the CSV is the label 17,
    the top of the second column. *)
Lemma print_csv_full_pages_witness :
  (List.length (items 23 1 80) mod 80 = 0)%nat /\
  Forall (fun cell => 0 <= snd cell) (items 23 1 80) /\
  csv_row (nth (csv_source 1) (items 23 1 80) (0, 0))
    = "17,23,0017,ASN230017,00,#ff0090" /\
  print_csv (items 23 1 80)
    = ("ID,Year,ID4,CODE,Zero4,fg"
         :: map (fun j => csv_row (nth (csv_source j) (items 23 1 80) (0, 0)))
                (seq 0 (List.length (items 23 1 80))),
       inl tt) /\
  Permutation (map (fun j => nth (csv_source j) (items 23 1 80) (0, 0))
                   (seq 0 (List.length (items 23 1 80))))
              (items 23 1 80).
Proof.
  assert (Hmod : (List.length (items 23 1 80) mod 80 = 0)%nat) by reflexivity.
  assert (Hall : Forall (fun cell => 0 <= snd cell) (items 23 1 80)).
  { apply Forall_forall. intros [y x] Hin. apply items_In in Hin. simpl. lia. }
  split; [exact Hmod|]. split; [exact Hall|]. split; [reflexivity|].
  exact (print_csv_full_pages (items 23 1 80) Hmod Hall).
Defined.

(** ** From a block-count spec to the CSV *)

Lemma items_serials_nonneg year first last :
  0 <= first -> Forall (fun cell => 0 <= snd cell) (items year first last).
Proof.
  intros Hf. apply Forall_forall. intros [y x] Hin.
  apply items_In in Hin. simpl. lia.
Qed.

(** The labels of a spec year:first:xN with first >= 0 make a CSV exactly
    when they fill whole pages, that is when N is a multiple of 5 (or not
    positive, which leaves only the header); any other N ends [print_csv]
    in IndexError. *)
Theorem block_count_csv_iff_multiple_of_5 ys fs ns year first n :
  denotes 0 ys year -> denotes 1 fs first -> Py.int_text ns = Some n ->
  0 <= first ->
  exists data out r,
    collect [ys ++ ":" ++ fs ++ ":x" ++ ns] [] = ret data /\
    print_csv data = ("ID,Year,ID4,CODE,Zero4,fg" :: out, r) /\
    (r = inl tt <-> n <= 0 \/ n mod 5 = 0) /\
    (r <> inl tt -> r = inr IndexError).
Proof.
  intros Hy Hf Hn Hfirst.
  set (data := items year first (first + ROWS * n - 1)).
  assert (C : collect [ys ++ ":" ++ fs ++ ":x" ++ ns] [] = ret data).
  { rewrite (collect_single _ _ (parse_cfg_block_count _ _ _ _ _ _ Hy Hf Hn)).
    reflexivity. }
  assert (L : List.length data = Z.to_nat (16 * n)).
  { unfold data. rewrite items_length. unfold ROWS. f_equal. lia. }
  pose proof (items_serials_nonneg year first (first + ROWS * n - 1) Hfirst) as Hall.
  fold data in Hall.
  destruct (Nat.eq_dec (List.length data mod 80) 0) as [E|E].
  - exists data. eexists. exists (inl tt).
    split; [exact C|]. split; [exact (print_csv_lines data E Hall)|].
    split; [|congruence]. split; [|reflexivity]. intros _.
    destruct (Z_le_gt_dec n 0) as [|Hpos]; [now left|right].
    rewrite L in E. euclid (Z.to_nat (16 * n)) 80%nat.
    pose proof (Z.div_mod n 5 ltac:(lia)). pose proof (Z.mod_pos_bound n 5 ltac:(lia)).
    lia.
  - destruct (print_csv_partial data E) as (out & e & P & Pe).
    exists data, out, (inr e). split; [exact C|]. split; [exact P|].
    rewrite (Pe Hall). split; [|reflexivity].
    split; [discriminate|]. intros H. exfalso. apply E. rewrite L.
    destruct H as [H|H].
    + replace (Z.to_nat (16 * n)) with O by lia. reflexivity.
    + pose proof (Z.div_mod n 5 ltac:(lia)).
      replace (Z.to_nat (16 * n)) with (Z.to_nat (n / 5) * 80)%nat by lia.
      apply Nat.Div0.mod_mul.
Qed.

(** "1:1:x5" is one full page, "1:1:x2" is not. *)
Lemma block_count_csv_iff_multiple_of_5_witness :
  denotes 0 "1" 1 /\ denotes 1 "1" 1 /\ Py.int_text "2" = Some 2 /\ 0 <= 1 /\
  snd (print_csv (items 1 1 80)) = inl tt /\
  snd (print_csv (items 1 1 32)) = inr IndexError /\
  exists data out r,
    collect ["1:1:x2"] [] = ret data /\
    print_csv data = ("ID,Year,ID4,CODE,Zero4,fg" :: out, r) /\
    (r = inl tt <-> 2 <= 0 \/ 2 mod 5 = 0) /\
    (r <> inl tt -> r = inr IndexError).
Proof.
  assert (Hy : denotes 0 "1" 1) by field_given.
  assert (Hf : denotes 1 "1" 1) by field_given.
  assert (Hn : Py.int_text "2" = Some 2) by reflexivity.
  assert (H1 : 0 <= 1) by lia.
  split; [exact Hy|]. split; [exact Hf|]. split; [exact Hn|]. split; [exact H1|].
  split; [reflexivity|]. split; [reflexivity|].
  exact (block_count_csv_iff_multiple_of_5 "1" "1" "2" 1 1 2 Hy Hf Hn H1).
Defined.
